(** * plot_waveforms: classification and alignment of spike waveforms

    A shallow embedding of [src/plotting/plot_waveforms.py]:
    - [calc_is_tagged] and [assign_timestamp_type] (the classifier),
    - the baseline subtraction of [load_plot_tagged_waveforms],
    - [align_tagged_spont] with its inner [calc_waveform_max].

    Timestamps are kept abstract: a type [T] with the comparison [<] and the
    subtraction [-] that the source applies to them.  Waveform samples are
    rationals, so that means are exact.  Array indices are [Z], because the
    source computes [spont_max_index - 6], which may be negative, and hands
    it to a slice.  Python exceptions are values of [result]. *)

From Stdlib Require Import List ZArith QArith Qabs Lia Bool Permutation Sorted PeanoNat.
Import ListNotations.

Close Scope Q_scope.

(** ** Exceptions *)

Inductive exn : Set := ValueError | TypeError | IndexError.

Inductive result (A : Type) : Type :=
| Ok (a : A)
| Raise (e : exn).

Arguments Ok {A} a.
Arguments Raise {A} e.

Definition bind {A B : Type} (r : result A) (k : A -> result B) : result B :=
  match r with
  | Ok a => k a
  | Raise e => Raise e
  end.

Notation "x <- r ;; k" := (bind r (fun x => k))
  (at level 61, r at next level, right associativity).

(** [list(map(f, xs))] for an [f] that may raise: the first exception wins. *)
Fixpoint mapM {A B : Type} (f : A -> result B) (xs : list A) : result (list B) :=
  match xs with
  | [] => Ok []
  | x :: r => y <- f x ;; ys <- mapM f r ;; Ok (y :: ys)
  end.

(** ** Python and numpy indexing *)

(** [a[i]] for an integer [i]: a negative index counts from the end, an index
    outside [-n, n) raises [IndexError]. *)
Definition getitem {A : Type} (a : list A) (i : Z) : result A :=
  let n := Z.of_nat (length a) in
  let j := if (i <? 0)%Z then (i + n)%Z else i in
  if ((0 <=? j) && (j <? n))%Z then
    match nth_error a (Z.to_nat j) with
    | Some x => Ok x
    | None => Raise IndexError
    end
  else Raise IndexError.

(** A slice bound: a negative bound counts from the end, and the outcome is
    clamped to [0, n]. *)
Definition slice_bound (n i : Z) : Z :=
  if (i <? 0)%Z then Z.max 0 (i + n) else Z.min i n.

(** [a[i:j]]; empty when the normalised bounds cross. *)
Definition slice {A : Type} (a : list A) (i j : Z) : list A :=
  let n := Z.of_nat (length a) in
  let lo := slice_bound n i in
  let hi := slice_bound n j in
  firstn (Z.to_nat (hi - lo)) (skipn (Z.to_nat lo) a).

(** ** The classifier *)

Section Classifier.

(** Timestamps with the two operations of the source: [a < b], [a - b]. *)
Context {T : Type}.
Variable ltb : T -> T -> bool.
Variable sub : T -> T -> T.

(** The loop of [bisect.bisect_left(a, x)]:
    [while lo < hi: mid = (lo+hi)//2; if a[mid] < x: lo = mid+1 else: hi = mid].
    [fuel] bounds the number of iterations. *)
Fixpoint bisect_loop (fuel : nat) (a : list T) (x : T) (lo hi : nat) : nat :=
  match fuel with
  | O => lo
  | S fuel' =>
      if lo <? hi then
        let mid := (lo + hi) / 2 in
        match nth_error a mid with
        | Some am =>
            if ltb am x then bisect_loop fuel' a x (mid + 1) hi
            else bisect_loop fuel' a x lo mid
        | None => lo
        end
      else lo
  end.

(** [bisect.bisect_left(a, x)] with [lo = 0], [hi = len(a)].  The interval
    shrinks at every iteration, so [len(a)] iterations are enough. *)
Definition bisect_left (a : list T) (x : T) : nat :=
  bisect_loop (length a) a x 0 (length a).

Definition calc_is_tagged (event_stamps : list T) (spike_time window : T)
  : result bool :=
  let event_check_index := (Z.of_nat (bisect_left event_stamps spike_time) - 1)%Z in
  if (event_check_index =? -1)%Z then Ok false
  else
    e <- getitem event_stamps event_check_index ;;
    Ok (ltb (sub spike_time e) window).

(** The value of [np.array(map(f, spike_times))] (Python 2: [map] gives a
    list).  numpy takes the dtype from the elements; with no element at
    all the array is an empty float64 array, not a boolean one. *)
Inductive mask : Type :=
| BoolArray (bs : list bool)
| EmptyFloatArray.

Definition np_array_of_bools (bs : list bool) : mask :=
  match bs with
  | [] => EmptyFloatArray
  | _ :: _ => BoolArray bs
  end.

Fixpoint select {A : Type} (xs : list A) (bs : list bool) : list A :=
  match xs, bs with
  | x :: xs', b :: bs' => if b then x :: select xs' bs' else select xs' bs'
  | _, _ => []
  end.

(** [xs[m]]: a boolean mask of the length of [xs] keeps the elements at
    its true positions, in order; an array of floats is no index. *)
Definition index_by_mask {A : Type} (xs : list A) (m : mask) : result (list A) :=
  match m with
  | BoolArray bs =>
      if length bs =? length xs then Ok (select xs bs) else Raise IndexError
  | EmptyFloatArray => Raise IndexError
  end.

(** [~m]: elementwise negation of booleans; not defined on floats. *)
Definition invert (m : mask) : result mask :=
  match m with
  | BoolArray bs => Ok (BoolArray (map negb bs))
  | EmptyFloatArray => Raise TypeError
  end.

Definition assign_timestamp_type (event_stamps spike_times : list T) (window : T)
  : result (list T * list T) :=
  bs <- mapM (fun x => calc_is_tagged event_stamps x window) spike_times ;;
  let tagged_mask := np_array_of_bools bs in
  tagged_spike_times <- index_by_mask spike_times tagged_mask ;;
  not_mask <- invert tagged_mask ;;
  untagged_spike_times <- index_by_mask spike_times not_mask ;;
  Ok (tagged_spike_times, untagged_spike_times).

End Classifier.

(** ** Arrays of samples *)

(** One cutout: [L] rows (samples over time) of [C] channels each.  A set of
    cutouts is a list of them, the first axis of the 3D array. *)
Definition waveform : Type := list (list Q).

Definition Qltb (a b : Q) : bool := negb (Qle_bool b a).

Fixpoint zip_with {A B C : Type} (f : A -> B -> C) (xs : list A) (ys : list B)
  : list C :=
  match xs, ys with
  | x :: xs', y :: ys' => f x y :: zip_with f xs' ys'
  | _, _ => []
  end.

(** Elementwise sum of two rows, and of two arrays of rows. *)
Definition vadd (u v : list Q) : list Q := zip_with Qplus u v.
Definition madd (m p : list (list Q)) : list (list Q) := zip_with vadd m p.

(** [np.abs] on a 2D and on a 3D array. *)
Definition np_abs2 (w : waveform) : waveform := map (map Qabs) w.
Definition np_abs3 (a : list waveform) : list waveform := map np_abs2 a.

(** [np.mean(m, axis=0)] of a 2D array: the rows are added up and the sum is
    divided by their number. *)
Definition mean_axis0_2 (m : list (list Q)) : list Q :=
  match m with
  | [] => []
  | r :: rs =>
      map (fun s => (s / inject_Z (Z.of_nat (length m)))%Q) (fold_left vadd rs r)
  end.

(** [np.mean(a, axis=0)] of a 3D array.  A list of cutouts does not record
    [L] and [C] when it is empty, so the case of no cutout at all (where
    numpy gives an array of NaN) is outside the model. *)
Definition mean_axis0_3 (a : list waveform) : list (list Q) :=
  match a with
  | [] => []
  | w :: ws =>
      map (map (fun s => (s / inject_Z (Z.of_nat (length a)))%Q)) (fold_left madd ws w)
  end.

(** The scan of [np.argmax]: the position of the first maximum. *)
Fixpoint argmax_from (best_i : nat) (best : Q) (i : nat) (xs : list Q) : nat :=
  match xs with
  | [] => best_i
  | x :: r =>
      if Qltb best x then argmax_from i x (S i) r
      else argmax_from best_i best (S i) r
  end.

(** [np.argmax] of the flattened array; an empty array raises [ValueError]. *)
Definition argmax (xs : list Q) : result nat :=
  match xs with
  | [] => Raise ValueError
  | x :: r => Ok (argmax_from 0 x 1 r)
  end.

(** [int(i / 4)] for the flat index [i]: true division, then truncation. *)
Definition int_div4 (i : nat) : Z := Z.quot (Z.of_nat i) 4.

(** [np.roll(a, shift, axis=0)]: the row at [i] moves to [(i + shift) mod n]. *)
Definition np_roll {A : Type} (a : list A) (shift : Z) : list A :=
  let n := length a in
  if n =? 0 then a
  else
    let k := Z.to_nat (shift mod Z.of_nat n) in
    skipn (n - k) a ++ firstn (n - k) a.

(** ** Baseline subtraction (lines 48 to 51 of the source) *)

(** [np.apply_over_axes(np.mean, a, axes=[0,1])[0][0]]: the mean along axis 0,
    then the mean of that along axis 1; one number per channel. *)
Definition baseline_offset (a : list waveform) : list Q :=
  mean_axis0_2 (mean_axis0_3 a).

(** [a -= offset]: the offset is broadcast along the channel axis. *)
Definition subtract_offset (a : list waveform) (offset : list Q) : list waveform :=
  map (map (fun row => zip_with Qminus row offset)) a.

Definition remove_baseline (a : list waveform) : list waveform :=
  subtract_offset a (baseline_offset a).

(** ** The aligner *)

Definition spont_max_index (spont_waveforms : list waveform) : result Z :=
  i <- argmax (concat (mean_axis0_3 (np_abs3 spont_waveforms))) ;;
  Ok (int_div4 i).

Definition calc_waveform_max (spont_max_index : Z) (cur_waveform : waveform)
  : result Z :=
  let centered_waveform :=
    slice cur_waveform (spont_max_index - 6) (spont_max_index + 6) in
  i <- argmax (concat (np_abs2 centered_waveform)) ;;
  Ok (int_div4 i + spont_max_index - 6)%Z.

Definition align_tagged_spont (tagged_waveforms spont_waveforms : list waveform)
  : result (list waveform) :=
  smi <- spont_max_index spont_waveforms ;;
  tagged_offsets <- mapM (calc_waveform_max smi) tagged_waveforms ;;
  Ok (map (fun p => np_roll (fst p) (- snd p + smi))
          (combine tagged_waveforms tagged_offsets)).

(** ** The presenter *)

(** The calls into matplotlib (and the styling helper), in the order in
    which they are made; each call is taken to return. *)
Inductive title : Set := TaggedWaveforms | SpontaneousWaveforms.

Inductive draw : Type :=
| Figure                            (* plt.figure(figsize = [7, 10]) *)
| Subplot (rows cols index : nat)   (* fig.add_subplot / plt.subplot *)
| Plot (xs ys : list Q)             (* plt.plot(xs, ys, linewidth, color) *)
| PrettifyAxes                      (* MP_plot.prettify_axes(plt.gca()) *)
| XLabel                            (* plt.xlabel('Time (ms)', ...) *)
| SupTitle (t : title).             (* fig.suptitle('... waveforms', ...) *)

(** [np.shape(cutout)[1]], read off the first row, and [cutout[:, i]]. *)
Definition num_channels (w : waveform) : nat := length (hd [] w).

Definition column (i : nat) (w : waveform) : list Q :=
  map (fun row => nth i row 0%Q) w.

Definition plot_cutout (timepoints : list Q) (cutout : waveform) : list draw :=
  let num_electrodes := num_channels cutout in
  flat_map
    (fun i =>
       [Subplot num_electrodes 1 (i + 1);
        Plot (map (fun t => t * 1000)%Q timepoints)
             (map (fun v => v / 1000)%Q (column i cutout));
        PrettifyAxes])
    (seq 0 num_electrodes).

Section Presenter.

(** Lines 80 and 81: [ts = 1 / sampling_freq] and
    [np.arange(-num_pre * ts, (cutout_length - num_pre) * ts, ts)], a
    computation on floats (which fails for a sampling frequency of 0); it is
    a parameter here, of [num_pre], [cutout_length] and [sampling_freq]. *)
Variable time_axis : Z -> nat -> Z -> result (list Q).

Definition plot_all_cutouts (cutouts : list waveform)
  (num_pre num_plot sampling_freq : Z) : result (list draw) :=
  let num_plot := Z.min (Z.of_nat (length cutouts)) num_plot in
  first <- getitem cutouts 0 ;;
  let cutout_length := length first in
  timepoints <- time_axis num_pre cutout_length sampling_freq ;;
  let num_electrodes := num_channels first in
  Ok ([Figure; Subplot 4 1 1]
      ++ flat_map (plot_cutout timepoints) (slice cutouts 0 num_plot)
      ++ [Subplot num_electrodes 1 num_electrodes; XLabel]).

End Presenter.

(** ** The entry point *)

(** The channels of a tetrode, first and last (line 37). *)
Definition channel_range (tetrode : Z) : Z * Z :=
  ((tetrode - 1) * 4 + 1, tetrode * 4)%Z.

Section EntryPoint.

Context {T W : Type}.
Variable ltb : T -> T -> bool.
Variable sub : T -> T -> T.

(** The default window of [assign_timestamp_type], 0.01 s. *)
Variable default_window : T.

(** The collaborators of the package [nlxio], whose code is elsewhere:
    [nlx_to_dat.load_nlx] and [helper_functions.extract_waveform_at_timestamp],
    taken to return. *)
Variable load_nlx : Z * Z -> W.
Variable extract_waveform_at_timestamp : W -> list T -> list waveform.

Variable time_axis : Z -> nat -> Z -> result (list Q).

(** The value is the pair of arrays returned, together with the drawing
    calls made on the way. *)
Definition load_plot_tagged_waveforms (tetrode : Z)
  (event_times spike_times : list T) (plot_flag : bool)
  : result (list draw * (list waveform * list waveform)) :=
  let wideband := load_nlx (channel_range tetrode) in
  classes <- assign_timestamp_type ltb sub event_times spike_times
               default_window ;;
  let tagged_waveforms := extract_waveform_at_timestamp wideband (fst classes) in
  let spont_waveforms := extract_waveform_at_timestamp wideband (snd classes) in
  let tagged_waveforms := remove_baseline tagged_waveforms in
  let spont_waveforms := remove_baseline spont_waveforms in
  tagged_waveforms <- align_tagged_spont tagged_waveforms spont_waveforms ;;
  calls <- (if plot_flag then
              tagged_fig <- plot_all_cutouts time_axis tagged_waveforms
                              9 100 32000 ;;
              spont_fig <- plot_all_cutouts time_axis spont_waveforms
                             9 100 32000 ;;
              Ok (tagged_fig ++ [SupTitle TaggedWaveforms]
                  ++ spont_fig ++ [SupTitle SpontaneousWaveforms])
            else Ok []) ;;
  Ok (calls, (tagged_waveforms, spont_waveforms)).

End EntryPoint.



(** ** Vocabulary of the statements *)

Section ClassifierVocabulary.

Context {T : Type}.
Variable ltb : T -> T -> bool.

(** Sorted strictly ascending: every element is below its successor. *)
Definition ascending (a : list T) : Prop :=
  Sorted (fun x y => ltb x y = true) a.

(** [e] is the latest event strictly before [t]. *)
Definition latest_before (events : list T) (t e : T) : Prop :=
  In e events /\ ltb e t = true /\
  forall e', In e' events -> ltb e' t = true -> ltb e e' = false.

(** [a <= b] on timestamps. *)
Definition le_ts (a b : T) : Prop := ltb a b = true \/ a = b.

(** [e] is the latest event at or before [t]. *)
Definition latest_upto (events : list T) (t e : T) : Prop :=
  In e events /\ le_ts e t /\
  forall e', In e' events -> le_ts e' t -> le_ts e' e.

End ClassifierVocabulary.

(** The test that [assign_timestamp_type] maps over the spikes, as a
    boolean: true when [calc_is_tagged] returns [True]. *)
Definition tagged_by {T : Type} (ltb : T -> T -> bool) (sub : T -> T -> T)
  (events : list T) (window : T) (t : T) : bool :=
  match calc_is_tagged ltb sub events t window with
  | Ok b => b
  | Raise _ => false
  end.

(** [s] keeps some of the elements of [l], in the order of [l]. *)
Inductive subsequence {A : Type} : list A -> list A -> Prop :=
| sub_nil : subsequence [] []
| sub_keep x s l : subsequence s l -> subsequence (x :: s) (x :: l)
| sub_drop x s l : subsequence s l -> subsequence s (x :: l).

(** The shape [(L, C)] of a cutout and [(N, L, C)] of a set of cutouts. *)
Definition shape2 (w : waveform) (L C : nat) : Prop :=
  length w = L /\ Forall (fun r => length r = C) w.

Definition shape3 (a : list waveform) (N L C : nat) : Prop :=
  length a = N /\ Forall (fun w => shape2 w L C) a.

(** The sample of cutout [w] at time index [l] on channel [c]. *)
Definition entry (w : waveform) (l c : nat) : Q := nth c (nth l w []) 0%Q.

Definition Qsum (xs : list Q) : Q := fold_right Qplus 0%Q xs.

(** The mean of channel [c] over all samples of all cutouts of the set. *)
Definition channel_mean (a : list waveform) (L c : nat) : Q :=
  (Qsum (map (fun w => Qsum (map (fun row => nth c row 0%Q) w)) a)
   / inject_Z (Z.of_nat (length a * L)))%Q.

(** The mean over the cutouts of [|sample|] at time index [l], channel [c]. *)
Definition mean_abs_at (a : list waveform) (l c : nat) : Q :=
  (Qsum (map (fun w => Qabs (entry w l c)) a) / inject_Z (Z.of_nat (length a)))%Q.

(** The 1D profile of the specification: at each time index, [|sample|]
    averaged over all cutouts and all four channels. *)
Definition abs_profile_at (a : list waveform) (l : nat) : Q :=
  (Qsum (map (fun w => Qsum (map Qabs (nth l w []))) a)
   / inject_Z (Z.of_nat (length a * 4)))%Q.

Definition abs_profile (a : list waveform) (L : nat) : list Q :=
  map (abs_profile_at a) (seq 0 L).

(** [k] is the position of the first maximum of [l]. *)
Definition first_max (l : list Q) (k : nat) : Prop :=
  k < length l /\
  (forall j, j < length l -> (nth j l 0 <= nth k l 0)%Q) /\
  (forall j, j < k -> (nth j l 0 < nth k l 0)%Q).

(** [p] is the time index of the maximum of [f l c] over the rows
    [lo <= l < hi] and the four channels, the first such row if several
    attain it. *)
Definition peak_row (f : nat -> nat -> Q) (lo hi p : nat) : Prop :=
  lo <= p < hi /\
  exists c, c < 4 /\
    (forall l c', lo <= l < hi -> c' < 4 -> (f l c' <= f p c)%Q) /\
    (forall l c', lo <= l < p -> c' < 4 -> (f l c' < f p c)%Q).

(** [out] is [w] rotated by [shift] along the time axis. *)
Definition rotated_by {A : Type} (w out : list A) (shift : Z) : Prop :=
  length out = length w /\
  forall i, i < length w ->
    nth_error out (Z.to_nat ((Z.of_nat i + shift) mod Z.of_nat (length w)))
    = nth_error w i.

(** A cutout, and a set of cutouts, with the sign of every sample flipped. *)
Definition flip_sign (w : waveform) : waveform := map (map Qopp) w.
Definition flip_signs (a : list waveform) : list waveform := map flip_sign a.

(** A cutout, and a set of cutouts, with every sample multiplied by [k]. *)
Definition scale (k : Q) (w : waveform) : waveform := map (map (Qmult k)) w.
Definition scales (k : Q) (a : list waveform) : list waveform := map (scale k) a.

(** What [f] does to the value a call returns; an exception passes through. *)
Definition on_result {A B : Type} (f : A -> B) (r : result A) : result B :=
  match r with
  | Ok a => Ok (f a)
  | Raise e => Raise e
  end.

(** ** Cutouts used in the examples *)

(** A cutout of [L] samples, silent except for the value [v] on the first
    channel at time index [p]. *)
Definition spike_at (L p : nat) (v : Q) : waveform :=
  map (fun l => if l =? p then [v; 0; 0; 0]%Q else [0; 0; 0; 0]%Q) (seq 0 L).

(** One cutout of two samples: a large value on one channel at the first
    sample, a smaller value on all four channels at the second. *)
Definition two_sample_set : list waveform :=
  [[[10; 0; 0; 0]; [9; 9; 9; 9]]]%Q.

(** Sets of one cutout of 32 samples: a reference with its peak at index 20
    and a tagged cutout that peaks three samples later; a reference with its
    peak at index 2, less than six samples from the start, and a tagged
    cutout with its peak at index 4. *)
Definition spont_mid : list waveform := [spike_at 32 20 7%Q].
Definition tagged_late : list waveform := [spike_at 32 23 (-5)%Q].
Definition spont_early : list waveform := [spike_at 32 2 7%Q].
Definition tagged_early : list waveform := [spike_at 32 4 (-5)%Q].

(** Stand-ins for the collaborators in the examples: one recording, in which
    every spike before 1.5 s has its peak at index 22 and every other spike
    at index 20, and a time axis left empty. *)
Definition demo_load_nlx (channels : Z * Z) : unit := tt.

Definition demo_extract (wideband : unit) (stamps : list Q) : list waveform :=
  map (fun t => if Qltb t 1.5 then spike_at 32 22 (-5)%Q else spike_at 32 20 7%Q)
      stamps.

Definition demo_time_axis (num_pre : Z) (cutout_length : nat) (sf : Z)
  : result (list Q) := Ok [].

(** * Facts about the classifier *)

Lemma mapM_total {A B : Type} (f : A -> result B) (g : A -> B) (xs : list A) :
  (forall x, In x xs -> f x = Ok (g x)) -> mapM f xs = Ok (map g xs).
Proof.
  induction xs as [|x r IH]; simpl; intros H.
  - reflexivity.
  - rewrite (H x (or_introl eq_refl)). simpl.
    rewrite IH by (intros y Hy; apply H; right; exact Hy).
    reflexivity.
Qed.

Lemma mapM_raise {A B : Type} (f : A -> result B) (e : exn) (xs : list A) :
  xs <> [] -> (forall x, In x xs -> f x = Raise e) -> mapM f xs = Raise e.
Proof.
  destruct xs as [|x r]; intros Hne H.
  - contradiction.
  - simpl. rewrite (H x (or_introl eq_refl)). reflexivity.
Qed.

Lemma getitem_nonneg {A : Type} (a : list A) (i : nat) (x : A) :
  nth_error a i = Some x -> getitem a (Z.of_nat i) = Ok x.
Proof.
  intros H. unfold getitem.
  assert (Hi : i < length a) by (apply nth_error_Some; congruence).
  destruct (Z.ltb_spec (Z.of_nat i) 0) as [Hn|_]; [lia|].
  destruct (Z.leb_spec 0 (Z.of_nat i)) as [_|Hn]; [|lia].
  destruct (Z.ltb_spec (Z.of_nat i) (Z.of_nat (length a))) as [_|Hn]; [|lia].
  simpl. rewrite Nat2Z.id, H. reflexivity.
Qed.

Section ClassifierFacts.

Context {T : Type}.
Variable ltb : T -> T -> bool.
Variable sub : T -> T -> T.

Lemma half_between (lo hi : nat) : lo < hi -> lo <= (lo + hi) / 2 < hi.
Proof.
  intros H.
  pose proof (Nat.div_mod_eq (lo + hi) 2) as E.
  pose proof (Nat.mod_upper_bound (lo + hi) 2) as U.
  lia.
Qed.

(** The search never leaves the interval it is given, whatever the order
    of the array. *)
Lemma bisect_loop_bounds (a : list T) (x : T) (fuel : nat) :
  forall lo hi, lo <= hi -> lo <= bisect_loop ltb fuel a x lo hi <= hi.
Proof.
  induction fuel as [|fuel IH]; intros lo hi Hle; cbn [bisect_loop].
  - lia.
  - destruct (Nat.ltb_spec lo hi) as [Hlt|Hge]; [|lia].
    pose proof (half_between _ _ Hlt) as Hm.
    destruct (nth_error a ((lo + hi) / 2)) as [am|]; [|lia].
    destruct (ltb am x).
    + specialize (IH ((lo + hi) / 2 + 1) hi). lia.
    + specialize (IH lo ((lo + hi) / 2)). lia.
Qed.

Lemma bisect_left_le_length (a : list T) (x : T) :
  bisect_left ltb a x <= length a.
Proof.
  unfold bisect_left.
  pose proof (bisect_loop_bounds a x (length a) 0 (length a)). lia.
Qed.

(** The two branches of [calc_is_tagged], in terms of the insertion
    point: no exception is possible. *)
Lemma calc_is_tagged_cases (events : list T) (t w : T) :
  (bisect_left ltb events t = 0 /\
   calc_is_tagged ltb sub events t w = Ok false) \/
  (exists i e, bisect_left ltb events t = S i /\
     nth_error events i = Some e /\
     calc_is_tagged ltb sub events t w = Ok (ltb (sub t e) w)).
Proof.
  unfold calc_is_tagged.
  pose proof (bisect_left_le_length events t) as Hle.
  destruct (bisect_left ltb events t) as [|i] eqn:E.
  - left. split; reflexivity.
  - right.
    destruct (nth_error events i) as [e|] eqn:En.
    + exists i, e. repeat split; trivial.
      replace (Z.of_nat (S i) - 1)%Z with (Z.of_nat i) by lia.
      destruct (Z.eqb_spec (Z.of_nat i) (-1)) as [Hm|_]; [lia|].
      rewrite (getitem_nonneg _ _ _ En). reflexivity.
    + apply nth_error_None in En. lia.
Qed.

Lemma calc_is_tagged_total (events : list T) (t w : T) :
  exists b, calc_is_tagged ltb sub events t w = Ok b.
Proof.
  destruct (calc_is_tagged_cases events t w) as [[_ H]|(i & e & _ & _ & H)];
    eauto.
Qed.

End ClassifierFacts.

(** ** Sorted events, for a strict order on timestamps *)

Section SortedEvents.

Context {T : Type}.
Variable ltb : T -> T -> bool.
Variable sub : T -> T -> T.

Hypothesis ltb_irrefl : forall x, ltb x x = false.
Hypothesis ltb_trans :
  forall x y z, ltb x y = true -> ltb y z = true -> ltb x z = true.

Lemma ltb_asym (x y : T) : ltb x y = true -> ltb y x = false.
Proof.
  intros H. destruct (ltb y x) eqn:E; [|reflexivity].
  rewrite <- (ltb_irrefl x). symmetry. exact (ltb_trans _ _ _ H E).
Qed.

Lemma ascending_nth (a : list T) :
  ascending ltb a ->
  forall i j u v, i < j ->
    nth_error a i = Some u -> nth_error a j = Some v -> ltb u v = true.
Proof.
  intros Ha.
  assert (Hs : StronglySorted (fun x y => ltb x y = true) a).
  { apply Sorted_StronglySorted; [|exact Ha].
    intros x y z. apply ltb_trans. }
  clear Ha.
  induction Hs as [|x l Hl IH Hx]; intros i j u v Hij Hi Hj.
  - destruct i; discriminate.
  - destruct j as [|j]; [lia|]. simpl in Hj.
    destruct i as [|i]; simpl in Hi.
    + injection Hi as <-. rewrite Forall_forall in Hx.
      apply Hx. eapply nth_error_In. exact Hj.
    + apply (IH i j); trivial. lia.
Qed.

(** The invariant of the binary search: everything left of [lo] is below
    [x], nothing from [hi] on is. *)
Lemma bisect_loop_sorted (a : list T) (x : T) :
  ascending ltb a ->
  forall fuel lo hi,
    lo <= hi <= length a -> hi - lo <= fuel ->
    (forall j e, j < lo -> nth_error a j = Some e -> ltb e x = true) ->
    (forall j e, hi <= j -> nth_error a j = Some e -> ltb e x = false) ->
    (forall j e, j < bisect_loop ltb fuel a x lo hi ->
       nth_error a j = Some e -> ltb e x = true) /\
    (forall j e, bisect_loop ltb fuel a x lo hi <= j ->
       nth_error a j = Some e -> ltb e x = false).
Proof.
  intros Ha.
  induction fuel as [|fuel IH]; intros lo hi Hb Hf Hlo Hhi; cbn [bisect_loop].
  - split; [exact Hlo|]. intros j e Hj. apply Hhi. lia.
  - destruct (Nat.ltb_spec lo hi) as [Hlt|Hge].
    2:{ split; [exact Hlo|]. intros j e Hj. apply Hhi. lia. }
    pose proof (half_between _ _ Hlt) as Hm.
    destruct (nth_error a ((lo + hi) / 2)) as [am|] eqn:Em.
    2:{ apply nth_error_None in Em. lia. }
    destruct (ltb am x) eqn:Elt.
    + apply IH; [lia | lia | | exact Hhi].
      intros j e Hj Hje.
      destruct (Nat.eq_dec j ((lo + hi) / 2)) as [->|Hne].
      * congruence.
      * apply ltb_trans with am; [|exact Elt].
        apply (ascending_nth a Ha j ((lo + hi) / 2)); trivial. lia.
    + apply IH; [lia | lia | exact Hlo |].
      intros j e Hj Hje.
      destruct (Nat.eq_dec j ((lo + hi) / 2)) as [->|Hne].
      * congruence.
      * destruct (ltb e x) eqn:Ee; [|reflexivity].
        rewrite <- Elt. symmetry. apply ltb_trans with e; [|exact Ee].
        apply (ascending_nth a Ha ((lo + hi) / 2) j); trivial. lia.
Qed.

(** On a sorted array [bisect_left] splits it: exactly the elements before
    the insertion point are below [x]. *)
Lemma bisect_left_sorted (a : list T) (x : T) :
  ascending ltb a ->
  (forall j e, j < bisect_left ltb a x ->
     nth_error a j = Some e -> ltb e x = true) /\
  (forall j e, bisect_left ltb a x <= j ->
     nth_error a j = Some e -> ltb e x = false).
Proof.
  intros Ha. unfold bisect_left.
  apply bisect_loop_sorted; trivial; try lia.
  intros j e Hj Hje.
  assert (j < length a) by (apply nth_error_Some; congruence). lia.
Qed.

(** The event that [calc_is_tagged] looks at is the latest one strictly
    before the spike, and there is such an event exactly when the
    insertion point is not 0. *)
Lemma checked_event_is_latest (events : list T) (t : T) (i : nat) (e : T) :
  ascending ltb events ->
  bisect_left ltb events t = S i -> nth_error events i = Some e ->
  latest_before ltb events t e.
Proof.
  intros Ha Hi He.
  destruct (bisect_left_sorted _ t Ha) as [Hbelow Habove].
  rewrite Hi in Hbelow, Habove.
  split; [eapply nth_error_In; exact He|].
  split; [apply (Hbelow i); trivial; lia|].
  intros e' Hin Hlt.
  destruct (In_nth_error _ _ Hin) as [j Hj].
  destruct (Nat.lt_ge_cases j (S i)) as [Hji|Hji].
  - destruct (Nat.eq_dec j i) as [->|Hne].
    + assert (e' = e) by congruence. subst e'. apply ltb_irrefl.
    + apply ltb_asym.
      apply (ascending_nth _ Ha j i); trivial. lia.
  - rewrite (Habove j e' Hji Hj) in Hlt. discriminate.
Qed.

Lemma latest_before_unique (events : list T) (t e1 e2 : T) :
  ascending ltb events ->
  latest_before ltb events t e1 -> latest_before ltb events t e2 -> e1 = e2.
Proof.
  intros Ha (Hin1 & Hlt1 & Hmax1) (Hin2 & Hlt2 & Hmax2).
  destruct (In_nth_error _ _ Hin1) as [j1 Hj1].
  destruct (In_nth_error _ _ Hin2) as [j2 Hj2].
  destruct (Nat.lt_trichotomy j1 j2) as [H|[H|H]].
  - pose proof (ascending_nth _ Ha _ _ _ _ H Hj1 Hj2) as C.
    rewrite (Hmax1 e2 Hin2 Hlt2) in C. discriminate.
  - subst j2. congruence.
  - pose proof (ascending_nth _ Ha _ _ _ _ H Hj2 Hj1) as C.
    rewrite (Hmax2 e1 Hin1 Hlt1) in C. discriminate.
Qed.

Lemma calc_is_tagged_latest (events : list T) (t w e : T) :
  ascending ltb events -> latest_before ltb events t e ->
  calc_is_tagged ltb sub events t w = Ok (ltb (sub t e) w).
Proof.
  intros Ha He.
  destruct (bisect_left_sorted _ t Ha) as [Hbelow Habove].
  destruct (calc_is_tagged_cases ltb sub events t w)
    as [[H0 _]|(i & e' & Hi & Hn & Hc)].
  - exfalso. destruct He as (Hin & Hlt & _).
    destruct (In_nth_error _ _ Hin) as [j Hj].
    rewrite (Habove j e) in Hlt; [discriminate | lia | exact Hj].
  - rewrite Hc.
    rewrite (latest_before_unique _ _ _ _ Ha He
               (checked_event_is_latest _ _ _ _ Ha Hi Hn)).
    reflexivity.
Qed.

Lemma calc_is_tagged_none_before (events : list T) (t w : T) :
  ascending ltb events ->
  (forall e, In e events -> ltb e t = false) ->
  calc_is_tagged ltb sub events t w = Ok false.
Proof.
  intros Ha Hnone.
  destruct (bisect_left_sorted _ t Ha) as [Hbelow _].
  destruct (calc_is_tagged_cases ltb sub events t w)
    as [[_ H]|(i & e & Hi & Hn & _)]; [exact H|].
  exfalso.
  assert (C : ltb e t = true) by (apply (Hbelow i); trivial; lia).
  rewrite (Hnone e (nth_error_In _ _ Hn)) in C. discriminate.
Qed.

End SortedEvents.

(** ** The two outputs of [assign_timestamp_type] *)

Lemma select_map_filter {A : Type} (f : A -> bool) (xs : list A) :
  select xs (map f xs) = filter f xs.
Proof.
  induction xs as [|x r IH]; simpl; [reflexivity|].
  rewrite IH. reflexivity.
Qed.

Lemma filter_subsequence {A : Type} (f : A -> bool) (xs : list A) :
  subsequence (filter f xs) xs.
Proof.
  induction xs as [|x r IH]; simpl.
  - constructor.
  - destruct (f x); constructor; exact IH.
Qed.

Lemma filter_split_length {A : Type} (f : A -> bool) (xs : list A) :
  length (filter f xs) + length (filter (fun x => negb (f x)) xs) = length xs.
Proof.
  induction xs as [|x r IH]; simpl; [reflexivity|].
  destruct (f x); simpl; lia.
Qed.

Lemma filter_split_permutation {A : Type} (f : A -> bool) (xs : list A) :
  Permutation (filter f xs ++ filter (fun x => negb (f x)) xs) xs.
Proof.
  induction xs as [|x r IH]; simpl; [constructor|].
  destruct (f x); simpl.
  - constructor. exact IH.
  - symmetry. apply Permutation_cons_app. symmetry. exact IH.
Qed.

Section AssignFacts.

Context {T : Type}.
Variable ltb : T -> T -> bool.
Variable sub : T -> T -> T.

Lemma tagged_by_spec (events : list T) (w t : T) :
  calc_is_tagged ltb sub events t w = Ok (tagged_by ltb sub events w t).
Proof.
  unfold tagged_by.
  destruct (calc_is_tagged_total ltb sub events t w) as [b ->].
  reflexivity.
Qed.

(** With at least one spike the mask is a boolean array and the two outputs
    are the spikes that pass the test and those that do not. *)
Lemma assign_timestamp_type_nonempty (events spikes : list T) (w : T) :
  spikes <> [] ->
  assign_timestamp_type ltb sub events spikes w
  = Ok (filter (tagged_by ltb sub events w) spikes,
        filter (fun t => negb (tagged_by ltb sub events w t)) spikes).
Proof.
  intros Hne. unfold assign_timestamp_type.
  rewrite (mapM_total _ (tagged_by ltb sub events w))
    by (intros; apply tagged_by_spec).
  destruct spikes as [|s r]; [contradiction|].
  cbn [bind map np_array_of_bools index_by_mask invert].
  rewrite <- !map_cons.
  rewrite !length_map, Nat.eqb_refl.
  cbn [bind].
  rewrite select_map_filter.
  rewrite map_map, select_map_filter.
  reflexivity.
Qed.

(** For a non-empty spike sequence the outputs are a stable partition. *)
Lemma assign_timestamp_type_partition (events spikes : list T) (w : T) :
  spikes <> [] ->
  exists tagged spont,
    assign_timestamp_type ltb sub events spikes w = Ok (tagged, spont) /\
    length tagged + length spont = length spikes /\
    Permutation (tagged ++ spont) spikes /\
    subsequence tagged spikes /\ subsequence spont spikes.
Proof.
  intros Hne. eexists. eexists.
  split; [apply assign_timestamp_type_nonempty; exact Hne|].
  split; [apply filter_split_length|].
  split; [apply filter_split_permutation|].
  split; apply filter_subsequence.
Qed.

End AssignFacts.

(** ** What the classifier decides *)

Section Classification.

Context {T : Type}.
Variable ltb : T -> T -> bool.
Variable sub : T -> T -> T.

Hypothesis ltb_irrefl : forall x, ltb x x = false.
Hypothesis ltb_trans :
  forall x y z, ltb x y = true -> ltb y z = true -> ltb x z = true.

(** C1, amended.  For events sorted strictly ascending, a spike [t] and a
    window [w], [calc_is_tagged] answers [True] exactly when some event lies
    strictly before [t] and the latest such event [e] has [t - e < w]; with
    no event strictly before [t] it answers [False] whatever [w] is.  An
    event at [t] itself does not count: [bisect_left] puts [t] before it.
    [assign_timestamp_type] sorts every spike of a non-empty sequence by
    this answer. *)
Theorem calc_is_tagged_iff_latest_strictly_before
  (events : list T) (t w : T) :
  ascending ltb events ->
  (calc_is_tagged ltb sub events t w = Ok true <->
   exists e, latest_before ltb events t e /\ ltb (sub t e) w = true) /\
  ((forall e, In e events -> ltb e t = false) ->
   calc_is_tagged ltb sub events t w = Ok false) /\
  (forall spikes, spikes <> [] ->
   exists tagged spont,
     assign_timestamp_type ltb sub events spikes w = Ok (tagged, spont) /\
     forall s,
       (In s tagged <->
        In s spikes /\ calc_is_tagged ltb sub events s w = Ok true) /\
       (In s spont <->
        In s spikes /\ calc_is_tagged ltb sub events s w = Ok false)).
Proof.
  intros Ha. split; [split|split].
  - intros Hc.
    destruct (calc_is_tagged_cases ltb sub events t w)
      as [[_ H]|(i & e & Hi & Hn & H)]; rewrite H in Hc.
    + discriminate Hc.
    + exists e. split.
      * exact (checked_event_is_latest ltb ltb_irrefl ltb_trans
                 events t i e Ha Hi Hn).
      * congruence.
  - intros (e & He & Hw).
    rewrite (calc_is_tagged_latest ltb sub ltb_irrefl ltb_trans
               events t w e Ha He).
    rewrite Hw. reflexivity.
  - apply (calc_is_tagged_none_before ltb sub ltb_trans); exact Ha.
  - intros spikes Hne. eexists. eexists.
    split; [apply assign_timestamp_type_nonempty; exact Hne|].
    intros s. rewrite !filter_In, !tagged_by_spec.
    split; (split; intros [Hin Hb]; (split; [exact Hin|])).
    + rewrite Hb. reflexivity.
    + congruence.
    + destruct (tagged_by ltb sub events w s); [discriminate Hb|reflexivity].
    + injection Hb as ->. reflexivity.
Qed.

(** C5.  For events sorted strictly ascending and a spike [t] whose nearest
    preceding event is [e]: when [t - e] is the window itself the spike is
    spontaneous (the comparison is strict), when [t - e] is below the
    window it is tagged. *)
Theorem window_boundary_is_strict (events : list T) (t w e : T) :
  ascending ltb events -> latest_before ltb events t e ->
  (sub t e = w -> calc_is_tagged ltb sub events t w = Ok false) /\
  (ltb (sub t e) w = true -> calc_is_tagged ltb sub events t w = Ok true).
Proof.
  intros Ha He.
  rewrite (calc_is_tagged_latest ltb sub ltb_irrefl ltb_trans
             events t w e Ha He).
  split.
  - intros ->. rewrite ltb_irrefl. reflexivity.
  - intros ->. reflexivity.
Qed.

End Classification.

(** ** Timestamps as rationals: an instance of the order *)

Lemma Qltb_lt (x y : Q) : Qltb x y = true <-> (x < y)%Q.
Proof.
  unfold Qltb. rewrite negb_true_iff. split.
  - intros H. apply Qnot_le_lt. intros C.
    apply Qle_bool_iff in C. congruence.
  - intros H. destruct (Qle_bool y x) eqn:E; [|reflexivity].
    apply Qle_bool_iff in E. exfalso. exact (Qlt_not_le _ _ H E).
Qed.

Lemma Qltb_irrefl (x : Q) : Qltb x x = false.
Proof.
  destruct (Qltb x x) eqn:E; [|reflexivity].
  apply Qltb_lt in E. exfalso. exact (Qlt_irrefl _ E).
Qed.

Lemma Qltb_trans (x y z : Q) :
  Qltb x y = true -> Qltb y z = true -> Qltb x z = true.
Proof.
  rewrite !Qltb_lt. apply Qlt_trans.
Qed.

(** The scenario of the specification: events at 1 s and 2 s, a window of
    10 ms. *)
Example classifier_scenario :
  (assign_timestamp_type Qltb Qminus [1; 2] [1.002; 1.5; 2.005] 0.01
   = Ok ([1.002; 2.005], [1.5]))%Q.
Proof. reflexivity. Qed.

(** An instance: events at 1 s and 2 s, a spike at 1.002 s. *)
Lemma calc_is_tagged_iff_latest_strictly_before_witness :
  ascending Qltb [1; 2]%Q /\
  ((calc_is_tagged Qltb Qminus [1; 2] 1.002 0.01 = Ok true <->
    exists e, latest_before Qltb [1; 2] 1.002 e /\
              Qltb (1.002 - e) 0.01 = true) /\
   ((forall e, In e [1; 2] -> Qltb e 1.002 = false) ->
    calc_is_tagged Qltb Qminus [1; 2] 1.002 0.01 = Ok false) /\
   (forall spikes, spikes <> [] ->
    exists tagged spont,
      assign_timestamp_type Qltb Qminus [1; 2] spikes 0.01
      = Ok (tagged, spont) /\
      forall s,
        (In s tagged <->
         In s spikes /\ calc_is_tagged Qltb Qminus [1; 2] s 0.01 = Ok true) /\
        (In s spont <->
         In s spikes /\ calc_is_tagged Qltb Qminus [1; 2] s 0.01 = Ok false)))%Q.
Proof.
  assert (Ha : ascending Qltb [1; 2]%Q) by (repeat constructor).
  split; [exact Ha|].
  exact (calc_is_tagged_iff_latest_strictly_before Qltb Qminus
           Qltb_irrefl Qltb_trans [1; 2]%Q 1.002%Q 0.01%Q Ha).
Defined.

(** An instance: a spike exactly 10 ms after the event at 1 s. *)
Lemma window_boundary_is_strict_witness :
  (ascending Qltb [1; 2] /\ latest_before Qltb [1; 2] 1.01 1 /\
   (1.01 - 1 = 0.01 -> calc_is_tagged Qltb Qminus [1; 2] 1.01 0.01 = Ok false) /\
   (Qltb (1.01 - 1) 0.01 = true ->
    calc_is_tagged Qltb Qminus [1; 2] 1.01 0.01 = Ok true))%Q.
Proof.
  assert (Ha : ascending Qltb [1; 2]%Q) by (repeat constructor).
  assert (He : latest_before Qltb [1; 2]%Q 1.01%Q 1%Q).
  { split; [left; reflexivity|]. split; [reflexivity|].
    intros e' [<-|[<-|[]]] H; [reflexivity | discriminate H]. }
  split; [exact Ha|]. split; [exact He|].
  exact (window_boundary_is_strict Qltb Qminus Qltb_irrefl Qltb_trans
           [1; 2]%Q 1.01%Q 0.01%Q 1%Q Ha He).
Defined.

(** C1 as stated fails: a spike at the very time of the only event has that
    event at or before it, zero seconds away, yet [calc_is_tagged] answers
    [False], because [bisect_left] returns 0 for it. *)
Lemma spike_at_event_time_not_tagged :
  (ascending Qltb [1] /\
   ~ (calc_is_tagged Qltb Qminus [1] 1 0.01 = Ok true <->
      exists e, latest_upto Qltb [1] 1 e /\ Qltb (1 - e) 0.01 = true))%Q.
Proof.
  split; [repeat constructor|].
  intros [_ H].
  assert (C : calc_is_tagged Qltb Qminus [1%Q] 1%Q 0.01%Q = Ok true).
  { apply H. exists 1%Q. split; [|reflexivity].
    split; [left; reflexivity|]. split; [right; reflexivity|].
    intros e' [<-|[]] _. right. reflexivity. }
  discriminate C.
Qed.

(** C4.  Evaluation at the failing input: with no spike at all the mask
    built by [np.array(map(...))] is an empty array of floats, and
    [assign_timestamp_type] raises instead of returning two empty outputs. *)
Theorem assign_timestamp_type_without_spikes_raises :
  forall (T : Type) (ltb : T -> T -> bool) (sub : T -> T -> T)
         (events : list T) (w : T),
    assign_timestamp_type ltb sub events [] w = Raise IndexError.
Proof. reflexivity. Qed.

(** C10.  Against no event every spike takes the branch of index -1, and a
    non-empty spike sequence comes back whole as spontaneous; the empty
    spike sequence, however, raises. *)
Theorem no_events_classification :
  forall (T : Type) (ltb : T -> T -> bool) (sub : T -> T -> T) (w : T),
    (forall t, calc_is_tagged ltb sub [] t w = Ok false) /\
    (forall spikes, spikes <> [] ->
       assign_timestamp_type ltb sub [] spikes w = Ok ([], spikes)) /\
    assign_timestamp_type ltb sub [] [] w = Raise IndexError.
Proof.
  intros T ltb sub w. split; [reflexivity|]. split; [|reflexivity].
  intros spikes Hne.
  rewrite assign_timestamp_type_nonempty by exact Hne.
  f_equal. f_equal.
  - clear Hne. induction spikes as [|s r IH]; [reflexivity|exact IH].
  - clear Hne. induction spikes as [|s r IH]; [reflexivity|].
    simpl. f_equal. exact IH.
Qed.

(** * Facts about arrays *)

(** ** [np.argmax] *)

Lemma Qltb_false_le (x y : Q) : Qltb x y = false -> (y <= x)%Q.
Proof.
  unfold Qltb. rewrite negb_false_iff. apply Qle_bool_iff.
Qed.

(** The scan keeps the first position of the largest value met so far. *)
Lemma argmax_from_spec (xs : list Q) :
  forall (pre : list Q) (best_i : nat) (best : Q),
    best_i < length pre -> nth best_i pre 0%Q = best ->
    (forall j, j < length pre -> (nth j pre 0 <= best)%Q) ->
    (forall j, j < best_i -> (nth j pre 0 < best)%Q) ->
    let k := argmax_from best_i best (length pre) xs in
    let l := pre ++ xs in
    k < length l /\
    (forall j, j < length l -> (nth j l 0 <= nth k l 0)%Q) /\
    (forall j, j < k -> (nth j l 0 < nth k l 0)%Q).
Proof.
  induction xs as [|x r IH]; intros pre best_i best Hi Hb Hmax Hfirst; simpl.
  - rewrite app_nil_r, Hb. auto.
  - assert (Hlen : length (pre ++ [x]) = S (length pre))
      by (rewrite length_app; simpl; lia).
    assert (Happ : pre ++ x :: r = (pre ++ [x]) ++ r)
      by (rewrite <- app_assoc; reflexivity).
    rewrite Happ, <- Hlen.
    destruct (Qltb best x) eqn:E.
    + apply Qltb_lt in E.
      apply IH.
      * lia.
      * rewrite app_nth2, Nat.sub_diag by lia. reflexivity.
      * intros j Hj. rewrite Hlen in Hj.
        destruct (Nat.eq_dec j (length pre)) as [->|Hne].
        -- rewrite app_nth2, Nat.sub_diag by lia. apply Qle_refl.
        -- rewrite app_nth1 by lia. apply Qlt_le_weak.
           apply Qle_lt_trans with best; [apply Hmax; lia | exact E].
      * intros j Hj. rewrite app_nth1 by lia.
        apply Qle_lt_trans with best; [apply Hmax; lia | exact E].
    + apply Qltb_false_le in E.
      apply IH.
      * lia.
      * rewrite app_nth1 by lia. exact Hb.
      * intros j Hj. rewrite Hlen in Hj.
        destruct (Nat.eq_dec j (length pre)) as [->|Hne].
        -- rewrite app_nth2, Nat.sub_diag by lia. exact E.
        -- rewrite app_nth1 by lia. apply Hmax. lia.
      * intros j Hj. rewrite app_nth1 by lia. apply Hfirst. exact Hj.
Qed.

Lemma argmax_nonempty (l : list Q) :
  l <> [] -> exists k, argmax l = Ok k /\ first_max l k.
Proof.
  destruct l as [|x r]; intros Hne; [contradiction|].
  exists (argmax_from 0 x 1 r). split; [reflexivity|].
  apply (argmax_from_spec r [x] 0 x); simpl.
  - lia.
  - reflexivity.
  - intros j Hj. replace j with 0 by lia. apply Qle_refl.
  - intros j Hj. lia.
Qed.

Lemma first_max_unique (l : list Q) (k1 k2 : nat) :
  first_max l k1 -> first_max l k2 -> k1 = k2.
Proof.
  intros (H1 & M1 & F1) (H2 & M2 & F2).
  destruct (Nat.lt_trichotomy k1 k2) as [H|[H|H]]; [|exact H|].
  - exfalso. apply (Qlt_not_le _ _ (F2 k1 H)). apply M1. exact H2.
  - exfalso. apply (Qlt_not_le _ _ (F1 k2 H)). apply M2. exact H1.
Qed.

(** ** Flattening an array of rows *)

Lemma concat_shape (m : list (list Q)) (L C : nat) :
  shape2 m L C -> length (concat m) = L * C.
Proof.
  intros [HL HC]. subst L.
  induction HC as [|r m Hr HC IH]; simpl; [reflexivity|].
  rewrite length_app, IH, Hr. reflexivity.
Qed.

Lemma concat_entry (m : list (list Q)) (L C : nat) :
  shape2 m L C ->
  forall l c, c < C -> nth (l * C + c) (concat m) 0%Q = entry m l c.
Proof.
  intros [HL HC]. subst L.
  induction HC as [|r m Hr HC IH]; intros l c Hc.
  - unfold entry. simpl. destruct (l * C + c); destruct l; destruct c; reflexivity.
  - destruct l as [|l]; simpl concat.
    + rewrite app_nth1 by (simpl; lia). reflexivity.
    + rewrite app_nth2 by (simpl; lia).
      replace (S l * C + c - length r) with (l * C + c) by (simpl; lia).
      rewrite IH by exact Hc. reflexivity.
Qed.

Lemma int_div4_nat (k : nat) : int_div4 k = Z.of_nat (k / 4).
Proof.
  unfold int_div4.
  rewrite Z.quot_div_nonneg by lia.
  rewrite Nat2Z.inj_div. reflexivity.
Qed.

(** The row of the first maximum of the flattened array is the first row
    that holds the maximum. *)
Lemma first_max_row (m : list (list Q)) (L k : nat) :
  shape2 m L 4 -> first_max (concat m) k -> peak_row (entry m) 0 L (k / 4).
Proof.
  intros Hm (Hk & Hmax & Hfirst).
  rewrite (concat_shape m L 4 Hm) in Hk, Hmax.
  pose proof (Nat.div_mod_eq k 4) as Ek.
  pose proof (Nat.mod_upper_bound k 4) as Uk.
  assert (Hv : nth k (concat m) 0%Q = entry m (k / 4) (k mod 4)).
  { rewrite <- (concat_entry m L 4 Hm) by lia. f_equal. lia. }
  split; [lia|].
  exists (k mod 4). split; [lia|]. split.
  - intros l c [_ Hl] Hc. rewrite <- Hv, <- (concat_entry m L 4 Hm) by exact Hc.
    apply Hmax. nia.
  - intros l c [_ Hl] Hc. rewrite <- Hv, <- (concat_entry m L 4 Hm) by exact Hc.
    apply Hfirst. lia.
Qed.

Lemma peak_row_unique (f : nat -> nat -> Q) (lo hi p q : nat) :
  peak_row f lo hi p -> peak_row f lo hi q -> p = q.
Proof.
  intros (Hp & cp & Hcp & Mp & Fp) (Hq & cq & Hcq & Mq & Fq).
  destruct (Nat.lt_trichotomy p q) as [H|[H|H]]; [|exact H|].
  - exfalso. apply (Qlt_not_le _ _ (Fq p cp (conj (proj1 Hp) H) Hcp)).
    apply Mp; [exact Hq | exact Hcq].
  - exfalso. apply (Qlt_not_le _ _ (Fp q cq (conj (proj1 Hq) H) Hcq)).
    apply Mq; [exact Hp | exact Hcp].
Qed.

Lemma peak_row_ext (f g : nat -> nat -> Q) (lo hi p : nat) :
  (forall l c, lo <= l < hi -> c < 4 -> (f l c == g l c)%Q) ->
  peak_row f lo hi p -> peak_row g lo hi p.
Proof.
  intros E (Hp & c & Hc & M & F).
  split; [exact Hp|]. exists c. split; [exact Hc|]. split.
  - intros l c' Hl Hc'. rewrite <- (E l c' Hl Hc'), <- (E p c Hp Hc).
    apply M; assumption.
  - intros l c' Hl Hc'.
    rewrite <- (E l c' (conj (proj1 Hl) (Nat.lt_trans _ _ _ (proj2 Hl) (proj2 Hp))) Hc').
    rewrite <- (E p c Hp Hc).
    apply F; assumption.
Qed.

(** Moving the origin of the rows. *)
Lemma peak_row_shift (f : nat -> nat -> Q) (lo n p : nat) :
  peak_row (fun l c => f (lo + l) c) 0 n p -> peak_row f lo (lo + n) (lo + p).
Proof.
  intros (Hp & c & Hc & M & F).
  split; [lia|]. exists c. split; [exact Hc|]. split.
  - intros l c' Hl Hc'.
    replace l with (lo + (l - lo)) by lia. apply M; [lia | exact Hc'].
  - intros l c' Hl Hc'.
    replace l with (lo + (l - lo)) by lia. apply F; [lia | exact Hc'].
Qed.

(** ** Slices *)

Lemma slice_nonneg {A : Type} (a : list A) (lo hi : nat) :
  slice a (Z.of_nat lo) (Z.of_nat hi)
  = firstn (Nat.min hi (length a) - Nat.min lo (length a))
           (skipn (Nat.min lo (length a)) a).
Proof.
  unfold slice, slice_bound.
  destruct (Z.ltb_spec (Z.of_nat lo) 0) as [H|_]; [lia|].
  destruct (Z.ltb_spec (Z.of_nat hi) 0) as [H|_]; [lia|].
  f_equal; [lia | f_equal; lia].
Qed.

(** A negative start is counted from the end of the array. *)
Lemma slice_negative_start {A : Type} (a : list A) (i : Z) (hi : nat) :
  (- Z.of_nat (length a) <= i < 0)%Z ->
  slice a i (Z.of_nat hi)
  = firstn (Nat.min hi (length a) - Z.to_nat (Z.of_nat (length a) + i))
           (skipn (Z.to_nat (Z.of_nat (length a) + i)) a).
Proof.
  intros Hi. unfold slice, slice_bound.
  destruct (Z.ltb_spec i 0) as [_|H]; [|lia].
  destruct (Z.ltb_spec (Z.of_nat hi) 0) as [H|_]; [lia|].
  f_equal; [lia | f_equal; lia].
Qed.

Lemma Forall_window {A : Type} (P : A -> Prop) (a : list A) (lo n : nat) :
  Forall P a -> Forall P (firstn n (skipn lo a)).
Proof.
  intros H.
  rewrite <- (firstn_skipn lo a) in H. apply Forall_app in H.
  destruct H as [_ H].
  rewrite <- (firstn_skipn n (skipn lo a)) in H. apply Forall_app in H.
  exact (proj1 H).
Qed.

Lemma window_shape (w : waveform) (L C lo n : nat) :
  shape2 w L C -> lo + n <= L -> shape2 (firstn n (skipn lo w)) n C.
Proof.
  intros [HL HC] Hn. split.
  - rewrite length_firstn, length_skipn. lia.
  - apply Forall_window. exact HC.
Qed.

Lemma window_entry (w : waveform) (lo n j c : nat) :
  j < n -> entry (firstn n (skipn lo w)) j c = entry w (lo + j) c.
Proof.
  intros Hj. unfold entry.
  rewrite nth_firstn.
  destruct (Nat.ltb_spec j n) as [_|H]; [|lia].
  rewrite nth_skipn. reflexivity.
Qed.

(** ** [np.abs] *)

Lemma np_abs2_shape (w : waveform) (L C : nat) :
  shape2 w L C -> shape2 (np_abs2 w) L C.
Proof.
  intros [HL HC]. split.
  - unfold np_abs2. rewrite length_map. exact HL.
  - unfold np_abs2. apply Forall_map.
    apply (Forall_impl _ (P := fun r => length r = C)); [|exact HC].
    intros r Hr. rewrite length_map. exact Hr.
Qed.

Lemma np_abs2_entry (w : waveform) (l c : nat) :
  entry (np_abs2 w) l c = Qabs (entry w l c).
Proof.
  unfold entry, np_abs2.
  change (@nil Q) with (map Qabs []) at 1. rewrite map_nth.
  change 0%Q with (Qabs 0) at 1. rewrite map_nth. reflexivity.
Qed.

(** ** The local peak search of [calc_waveform_max] *)

(** With the start of the window inside the cutout, the search succeeds and
    returns the first row of the window [ [r-6, min(r+6, L)) ] that holds
    the largest [|sample|] of the window. *)
Lemma calc_waveform_max_window (w : waveform) (L r : nat) :
  shape2 w L 4 -> 6 <= r -> r - 6 < L ->
  exists p,
    calc_waveform_max (Z.of_nat r) w = Ok (Z.of_nat p) /\
    peak_row (fun l c => Qabs (entry w l c)) (r - 6) (Nat.min (r + 6) L) p.
Proof.
  intros Hw H6 HL.
  pose proof (proj1 Hw) as Hlen.
  unfold calc_waveform_max.
  replace (Z.of_nat r - 6)%Z with (Z.of_nat (r - 6)) by lia.
  replace (Z.of_nat r + 6)%Z with (Z.of_nat (r + 6)) by lia.
  rewrite slice_nonneg, Hlen.
  replace (Nat.min (r - 6) L) with (r - 6) by lia.
  set (lo := r - 6). set (n := Nat.min (r + 6) L - lo).
  assert (Hn : 0 < n) by (unfold n, lo; lia).
  assert (Hs : shape2 (np_abs2 (firstn n (skipn lo w))) n 4).
  { apply np_abs2_shape. apply (window_shape w L); [exact Hw|]. unfold n, lo. lia. }
  destruct (argmax_nonempty (concat (np_abs2 (firstn n (skipn lo w)))))
    as (k & Hk & Hfm).
  { intros C. apply (f_equal (@length Q)) in C.
    rewrite (concat_shape _ n 4 Hs) in C. simpl in C. lia. }
  rewrite Hk. cbn [bind].
  pose proof (first_max_row _ n k Hs Hfm) as Hp.
  exists (lo + k / 4). split.
  - f_equal. rewrite int_div4_nat. unfold lo. lia.
  - replace (Nat.min (r + 6) L) with (lo + n) by (unfold n, lo; lia).
    apply peak_row_shift.
    apply (peak_row_ext (entry (np_abs2 (firstn n (skipn lo w))))); [|exact Hp].
    intros l c Hl Hc. rewrite np_abs2_entry, window_entry by lia.
    apply Qeq_refl.
Qed.

(** ** [np.roll] *)

Lemma np_roll_length {A : Type} (a : list A) (s : Z) :
  length (np_roll a s) = length a.
Proof.
  unfold np_roll. destruct (Nat.eqb_spec (length a) 0) as [_|Hn]; [reflexivity|].
  rewrite length_app, length_skipn, length_firstn. lia.
Qed.

Lemma np_roll_Forall {A : Type} (P : A -> Prop) (a : list A) (s : Z) :
  Forall P a -> Forall P (np_roll a s).
Proof.
  intros H. unfold np_roll.
  destruct (length a =? 0); [exact H|].
  set (k := length a - Z.to_nat (s mod Z.of_nat (length a))).
  rewrite <- (firstn_skipn k a) in H. apply Forall_app in H.
  apply Forall_app. tauto.
Qed.

Lemma np_roll_zero {A : Type} (a : list A) : np_roll a 0 = a.
Proof.
  unfold np_roll.
  destruct (Nat.eqb_spec (length a) 0) as [_|Hn]; [reflexivity|].
  rewrite Z.mod_0_l by lia. change (Z.to_nat 0) with 0. rewrite Nat.sub_0_r.
  rewrite skipn_all, firstn_all. reflexivity.
Qed.

(** The row at [i] is found at [(i + s) mod n] after the roll. *)
Lemma np_roll_rotated {A : Type} (a : list A) (s : Z) :
  rotated_by a (np_roll a s) s.
Proof.
  split; [apply np_roll_length|].
  intros i Hi. unfold np_roll.
  destruct (Nat.eqb_spec (length a) 0) as [Hz|Hn]; [lia|].
  set (n := length a) in *.
  assert (Hnz : (0 < Z.of_nat n)%Z) by lia.
  pose proof (Z.mod_pos_bound s (Z.of_nat n) Hnz) as Hk.
  rewrite <- Zplus_mod_idemp_r.
  set (k := (s mod Z.of_nat n)%Z) in *.
  assert (Hsk : length (skipn (n - Z.to_nat k) a) = Z.to_nat k)
    by (rewrite length_skipn; fold n; lia).
  destruct (Z.lt_ge_cases (Z.of_nat i + k) (Z.of_nat n)) as [Hlt|Hge].
  - rewrite Z.mod_small by lia.
    rewrite nth_error_app2 by (rewrite Hsk; lia).
    rewrite Hsk, nth_error_firstn.
    replace (Z.to_nat (Z.of_nat i + k) - Z.to_nat k) with i by lia.
    destruct (Nat.ltb_spec i (n - Z.to_nat k)) as [_|H]; [reflexivity|lia].
  - replace (Z.of_nat i + k)%Z
      with ((Z.of_nat i + k - Z.of_nat n) + 1 * Z.of_nat n)%Z by lia.
    rewrite Z_mod_plus_full, Z.mod_small by lia.
    rewrite nth_error_app1 by (rewrite Hsk; lia).
    rewrite nth_error_skipn. f_equal. lia.
Qed.

(** ** Mapping a search that may raise *)

Lemma mapM_pointwise {A B : Type} (f : A -> result B) (xs : list A) :
  (forall x, In x xs -> exists y, f x = Ok y) ->
  exists ys,
    mapM f xs = Ok ys /\ length ys = length xs /\
    forall i x, nth_error xs i = Some x ->
      exists y, f x = Ok y /\ nth_error ys i = Some y.
Proof.
  induction xs as [|x r IH]; intros H.
  - exists []. repeat split. intros [|i] x Hx; discriminate Hx.
  - destruct (H x (or_introl eq_refl)) as [y Hy].
    destruct IH as (ys & Hys & Hlen & Hnth);
      [intros z Hz; apply H; right; exact Hz|].
    exists (y :: ys). simpl. rewrite Hy, Hys. simpl.
    split; [reflexivity|]. split; [congruence|].
    intros [|i] z Hz; simpl in Hz.
    + injection Hz as <-. exists y. split; [exact Hy | reflexivity].
    + apply Hnth. exact Hz.
Qed.

Lemma nth_error_combine {A B : Type} (xs : list A) (ys : list B) :
  forall i x y, nth_error xs i = Some x -> nth_error ys i = Some y ->
    nth_error (combine xs ys) i = Some (x, y).
Proof.
  revert ys. induction xs as [|x0 xs IH]; intros ys i x y Hx Hy.
  - destruct i; discriminate Hx.
  - destruct ys as [|y0 ys]; [destruct i; discriminate Hy|].
    destruct i as [|i]; simpl in *.
    + congruence.
    + apply IH; assumption.
Qed.

(** ** [align_tagged_spont], given that every search succeeds or fails *)

Lemma align_tagged_spont_rolls (tagged spont : list waveform) (ref : Z) :
  spont_max_index spont = Ok ref ->
  (forall w, In w tagged -> exists p, calc_waveform_max ref w = Ok p) ->
  exists out,
    align_tagged_spont tagged spont = Ok out /\
    length out = length tagged /\
    forall i w, nth_error tagged i = Some w ->
      exists p, calc_waveform_max ref w = Ok p /\
                nth_error out i = Some (np_roll w (- p + ref)).
Proof.
  intros Href Hall.
  destruct (mapM_pointwise (calc_waveform_max ref) tagged Hall)
    as (offs & Hoffs & Hlen & Hnth).
  unfold align_tagged_spont. rewrite Href. cbn [bind]. rewrite Hoffs. cbn [bind].
  eexists. split; [reflexivity|].
  split; [rewrite length_map, length_combine; lia|].
  intros i w Hw. destruct (Hnth i w Hw) as (p & Hp & Hpi).
  exists p. split; [exact Hp|].
  pose proof (nth_error_combine tagged offs i w p Hw Hpi) as E.
  unfold waveform in *. rewrite nth_error_map, E. reflexivity.
Qed.

Lemma align_tagged_spont_raises (tagged spont : list waveform) (ref : Z) (e : exn) :
  spont_max_index spont = Ok ref -> tagged <> [] ->
  (forall w, In w tagged -> calc_waveform_max ref w = Raise e) ->
  align_tagged_spont tagged spont = Raise e.
Proof.
  intros Href Hne Hall. unfold align_tagged_spont.
  rewrite Href. cbn [bind].
  rewrite (mapM_raise _ e tagged Hne Hall). reflexivity.
Qed.

(** ** Sums and means along the first axis *)

Lemma zip_with_length {A B C : Type} (f : A -> B -> C) (xs : list A) :
  forall ys, length xs = length ys -> length (zip_with f xs ys) = length xs.
Proof.
  induction xs as [|x xs IH]; intros [|y ys] H; simpl in *; try congruence.
  rewrite IH by congruence. reflexivity.
Qed.

Lemma zip_with_nth {A B C : Type} (f : A -> B -> C) (dx : A) (dy : B) (dz : C)
  (xs : list A) :
  forall ys i, i < length xs -> i < length ys ->
    nth i (zip_with f xs ys) dz = f (nth i xs dx) (nth i ys dy).
Proof.
  induction xs as [|x xs IH]; intros [|y ys] i Hx Hy; simpl in *; try lia.
  destruct i as [|i]; [reflexivity|].
  apply IH; lia.
Qed.

Lemma shape2_row (m : list (list Q)) (L C l : nat) :
  shape2 m L C -> l < L -> length (nth l m []) = C.
Proof.
  intros [HL HC] Hl. rewrite Forall_forall in HC.
  apply HC. apply nth_In. lia.
Qed.

Lemma map_map_shape (f : Q -> Q) (m : list (list Q)) (L C : nat) :
  shape2 m L C -> shape2 (map (map f) m) L C.
Proof.
  intros [HL HC]. split.
  - rewrite length_map. exact HL.
  - apply Forall_map.
    apply (Forall_impl _ (P := fun r => length r = C)); [|exact HC].
    intros r Hr. rewrite length_map. exact Hr.
Qed.

Lemma map_map_entry (f : Q -> Q) (m : list (list Q)) (L C l c : nat) :
  shape2 m L C -> l < L -> c < C ->
  entry (map (map f) m) l c = f (entry m l c).
Proof.
  intros Hm Hl Hc. unfold entry.
  rewrite (nth_indep _ [] (map f [])) by (rewrite length_map; destruct Hm; lia).
  rewrite map_nth.
  rewrite (nth_indep _ 0%Q (f 0%Q))
    by (rewrite length_map, (shape2_row m L C l Hm Hl); exact Hc).
  rewrite map_nth. reflexivity.
Qed.

Lemma madd_shape (m p : list (list Q)) (L C : nat) :
  shape2 m L C -> shape2 p L C -> shape2 (madd m p) L C.
Proof.
  intros Hm Hp. pose proof Hm as [HmL _]. pose proof Hp as [HpL _].
  assert (Hlen : length (madd m p) = L).
  { unfold madd. rewrite zip_with_length; congruence. }
  split; [exact Hlen|].
  apply Forall_forall. intros r Hr.
  destruct (In_nth _ _ [] Hr) as (l & Hl & <-).
  rewrite Hlen in Hl. unfold madd.
  rewrite (zip_with_nth vadd [] []) by lia.
  unfold vadd. rewrite zip_with_length;
    rewrite !(shape2_row _ L C l) by assumption; reflexivity.
Qed.

Lemma madd_entry (m p : list (list Q)) (L C l c : nat) :
  shape2 m L C -> shape2 p L C -> l < L -> c < C ->
  entry (madd m p) l c = (entry m l c + entry p l c)%Q.
Proof.
  intros Hm Hp Hl Hc. unfold entry, madd.
  rewrite (zip_with_nth vadd [] []) by (destruct Hm, Hp; lia).
  unfold vadd.
  apply zip_with_nth; rewrite (shape2_row _ L C l) by assumption; exact Hc.
Qed.

Lemma fold_left_madd_shape (ws : list waveform) (L C : nat) :
  Forall (fun w => shape2 w L C) ws ->
  forall w, shape2 w L C -> shape2 (fold_left madd ws w) L C.
Proof.
  induction 1 as [|w' ws Hw' Hws IH]; intros w Hw; simpl; [exact Hw|].
  apply IH. apply madd_shape; assumption.
Qed.

Lemma fold_left_madd_entry (ws : list waveform) (L C l c : nat) :
  Forall (fun w => shape2 w L C) ws -> l < L -> c < C ->
  forall w, shape2 w L C ->
    (entry (fold_left madd ws w) l c
     == entry w l c + Qsum (map (fun w' => entry w' l c) ws))%Q.
Proof.
  intros Hws Hl Hc.
  induction Hws as [|w' ws Hw' Hws IH]; intros w Hw; simpl.
  - ring.
  - rewrite IH by (apply madd_shape; assumption).
    rewrite (madd_entry w w' L C l c) by assumption. ring.
Qed.

Lemma mean_axis0_3_shape (a : list waveform) (N L C : nat) :
  shape3 a N L C -> 0 < N -> shape2 (mean_axis0_3 a) L C.
Proof.
  intros [HN Ha] Hpos. destruct a as [|w ws]; [simpl in HN; lia|].
  unfold mean_axis0_3. apply map_map_shape.
  inversion Ha; subst. apply fold_left_madd_shape; assumption.
Qed.

Lemma mean_axis0_3_entry (a : list waveform) (N L C l c : nat) :
  shape3 a N L C -> 0 < N -> l < L -> c < C ->
  (entry (mean_axis0_3 a) l c
   == Qsum (map (fun w => entry w l c) a) / inject_Z (Z.of_nat N))%Q.
Proof.
  intros [HN Ha] Hpos Hl Hc. destruct a as [|w ws]; [simpl in HN; lia|].
  unfold mean_axis0_3. inversion Ha as [|? ? Hw Hws]; subst.
  rewrite (map_map_entry _ _ L C) by
    (try apply fold_left_madd_shape; assumption).
  rewrite (fold_left_madd_entry ws L C l c) by assumption.
  reflexivity.
Qed.

(** ** The reference index *)

Lemma np_abs3_shape (a : list waveform) (N L C : nat) :
  shape3 a N L C -> shape3 (np_abs3 a) N L C.
Proof.
  intros [HN Ha]. split.
  - unfold np_abs3. rewrite length_map. exact HN.
  - unfold np_abs3. apply Forall_map.
    apply (Forall_impl _ (P := fun w => shape2 w L C)); [|exact Ha].
    intros w. apply np_abs2_shape.
Qed.

Lemma mean_abs_entry (a : list waveform) (N L l c : nat) :
  shape3 a N L 4 -> 0 < N -> l < L -> c < 4 ->
  (entry (mean_axis0_3 (np_abs3 a)) l c == mean_abs_at a l c)%Q.
Proof.
  intros Ha Hpos Hl Hc.
  rewrite (mean_axis0_3_entry _ N L 4 l c (np_abs3_shape a N L 4 Ha) Hpos Hl Hc).
  unfold mean_abs_at, np_abs3. rewrite map_map, (proj1 Ha).
  rewrite (map_ext _ (fun w => Qabs (entry w l c)))
    by (intros w; apply np_abs2_entry).
  reflexivity.
Qed.

(** [spont_max_index] succeeds on a set with at least one cutout and one
    sample, and is the first time index that holds the largest per-channel
    mean of [|sample|]. *)
Lemma spont_max_index_peak (spont : list waveform) (N L : nat) :
  shape3 spont N L 4 -> 0 < N -> 0 < L ->
  exists r, spont_max_index spont = Ok (Z.of_nat r) /\
            peak_row (mean_abs_at spont) 0 L r.
Proof.
  intros Hs HN HL.
  pose proof (mean_axis0_3_shape _ N L 4 (np_abs3_shape _ _ _ _ Hs) HN) as Hm.
  destruct (argmax_nonempty (concat (mean_axis0_3 (np_abs3 spont))))
    as (k & Hk & Hfm).
  { intros C. apply (f_equal (@length Q)) in C.
    rewrite (concat_shape _ L 4 Hm) in C. simpl in C. lia. }
  exists (k / 4). split.
  - unfold spont_max_index. rewrite Hk. cbn [bind]. rewrite int_div4_nat.
    reflexivity.
  - apply (peak_row_ext (entry (mean_axis0_3 (np_abs3 spont)))).
    + intros l c [_ Hl] Hc. apply (mean_abs_entry spont N L); assumption.
    + apply first_max_row; assumption.
Qed.

Lemma spont_max_index_no_sample (spont : list waveform) (N : nat) :
  shape3 spont N 0 4 -> 0 < N -> spont_max_index spont = Raise ValueError.
Proof.
  intros Hs HN.
  pose proof (mean_axis0_3_shape _ N 0 4 (np_abs3_shape _ _ _ _ Hs) HN) as Hm.
  unfold spont_max_index.
  destruct (concat (mean_axis0_3 (np_abs3 spont))) as [|x r] eqn:E;
    [reflexivity|].
  apply (f_equal (@length Q)) in E.
  rewrite (concat_shape _ 0 4 Hm) in E. discriminate E.
Qed.

Lemma spont_max_index_inv (spont : list waveform) (N L : nat) (z : Z) :
  shape3 spont N L 4 -> 0 < N -> spont_max_index spont = Ok z ->
  exists r, z = Z.of_nat r /\ peak_row (mean_abs_at spont) 0 L r.
Proof.
  intros Hs HN Hz.
  destruct L as [|L].
  - rewrite (spont_max_index_no_sample spont N Hs HN) in Hz. discriminate Hz.
  - destruct (spont_max_index_peak spont N (S L) Hs HN) as (r & Hr & Hp); [lia|].
    exists r. split; [congruence | exact Hp].
Qed.

(** C2, amended.  For a non-empty set of shape (N, L, 4) with at least one
    sample, the reference index is the time index of the largest entry of
    the L x 4 array of per-channel means of [|sample|] over the N cutouts
    (the first time index, if several hold that entry).  The four channels
    are not averaged. *)
Theorem spont_max_index_is_peak_of_channel_means
  (spont : list waveform) (N L : nat) :
  shape3 spont N L 4 -> 0 < N -> 0 < L ->
  exists ref_index,
    spont_max_index spont = Ok (Z.of_nat ref_index) /\
    peak_row (mean_abs_at spont) 0 L ref_index /\
    forall p, peak_row (mean_abs_at spont) 0 L p -> p = ref_index.
Proof.
  intros Hs HN HL.
  destruct (spont_max_index_peak spont N L Hs HN HL) as (r & Hr & Hp).
  exists r. split; [exact Hr|]. split; [exact Hp|].
  intros p Hp'. exact (peak_row_unique _ _ _ _ _ Hp' Hp).
Qed.

Lemma two_sample_set_shape : shape3 two_sample_set 1 2 4.
Proof. repeat constructor. Qed.

Lemma spont_max_index_is_peak_of_channel_means_witness :
  shape3 two_sample_set 1 2 4 /\ 0 < 1 /\ 0 < 2 /\
  exists ref_index,
    spont_max_index two_sample_set = Ok (Z.of_nat ref_index) /\
    peak_row (mean_abs_at two_sample_set) 0 2 ref_index /\
    forall p, peak_row (mean_abs_at two_sample_set) 0 2 p -> p = ref_index.
Proof.
  split; [exact two_sample_set_shape|]. split; [lia|]. split; [lia|].
  apply (spont_max_index_is_peak_of_channel_means two_sample_set 1 2);
    [exact two_sample_set_shape | lia | lia].
Defined.

(** C2 as stated fails: on [two_sample_set] the profile averaged over the
    four channels is [2.5; 9], largest at index 1, while the source finds
    the entry 10 of the first sample and returns 0. *)
Lemma ref_index_is_not_argmax_of_channel_average :
  shape3 two_sample_set 1 2 4 /\
  argmax (abs_profile two_sample_set 2) = Ok 1 /\
  spont_max_index two_sample_set = Ok 0%Z /\
  ~ (exists k, argmax (abs_profile two_sample_set 2) = Ok k /\
               spont_max_index two_sample_set = Ok (Z.of_nat k)).
Proof.
  split; [exact two_sample_set_shape|].
  split; [reflexivity|]. split; [reflexivity|].
  intros (k & Hk & Hr).
  assert (k = 1) by (vm_compute in Hk; congruence). subst k.
  vm_compute in Hr. discriminate Hr.
Qed.

(** ** Alignment *)

Lemma peak_row_restrict (f : nat -> nat -> Q) (lo hi lo' hi' p : nat) :
  peak_row f lo hi p -> lo <= lo' -> lo' <= p < hi' -> hi' <= hi ->
  peak_row f lo' hi' p.
Proof.
  intros (Hp & c & Hc & M & F) Hlo Hp' Hhi.
  split; [exact Hp'|]. exists c. split; [exact Hc|]. split.
  - intros l c' Hl Hc'. apply M; [lia | exact Hc'].
  - intros l c' Hl Hc'. apply F; [lia | exact Hc'].
Qed.

Lemma shape3_nth (a : list waveform) (N L C i : nat) (w : waveform) :
  shape3 a N L C -> nth_error a i = Some w -> shape2 w L C.
Proof.
  intros [_ Ha] Hw. rewrite Forall_forall in Ha.
  apply Ha. eapply nth_error_In. exact Hw.
Qed.

Lemma shape3_In (a : list waveform) (N L C : nat) (w : waveform) :
  shape3 a N L C -> In w a -> shape2 w L C.
Proof.
  intros [_ Ha] Hw. rewrite Forall_forall in Ha. apply Ha. exact Hw.
Qed.

(** C3.  With the window [ref-6, ref+6) inside the cutouts, every tagged
    cutout is searched on its own: [local_peak] is the first time index of
    the window holding the largest [|sample|] over the four channels, and
    the cutout comes back rolled by [-(local_peak - ref_index)] along the
    time axis, so that the row at [i] is found at
    [(i - (local_peak - ref_index)) mod L].  With [ref_index = 20] and
    [local_peak = 23] the roll is by [-3]. *)
Theorem align_tagged_spont_rolls_to_local_peak
  (tagged spont : list waveform) (M L ref_index : nat) :
  shape3 tagged M L 4 ->
  spont_max_index spont = Ok (Z.of_nat ref_index) ->
  6 <= ref_index <= L - 6 ->
  exists out,
    align_tagged_spont tagged spont = Ok out /\
    length out = M /\
    forall i w, nth_error tagged i = Some w ->
      exists local_peak,
        peak_row (fun l c => Qabs (entry w l c))
                 (ref_index - 6) (ref_index + 6) local_peak /\
        (forall p, peak_row (fun l c => Qabs (entry w l c))
                            (ref_index - 6) (ref_index + 6) p ->
                   p = local_peak) /\
        calc_waveform_max (Z.of_nat ref_index) w = Ok (Z.of_nat local_peak) /\
        let offset := (Z.of_nat local_peak - Z.of_nat ref_index)%Z in
        nth_error out i = Some (np_roll w (- offset)) /\
        rotated_by w (np_roll w (- offset)) (- offset).
Proof.
  intros Ht Href Hr.
  assert (Hsearch : forall w, shape2 w L 4 ->
            exists p, calc_waveform_max (Z.of_nat ref_index) w = Ok (Z.of_nat p) /\
              peak_row (fun l c => Qabs (entry w l c))
                       (ref_index - 6) (ref_index + 6) p).
  { intros w Hw.
    destruct (calc_waveform_max_window w L ref_index Hw) as (p & Hp & Hpk);
      [lia | lia |].
    exists p. split; [exact Hp|].
    replace (Nat.min (ref_index + 6) L) with (ref_index + 6) in Hpk by lia.
    exact Hpk. }
  destruct (align_tagged_spont_rolls tagged spont (Z.of_nat ref_index) Href)
    as (out & Hout & Hlen & Hnth).
  { intros w Hw. destruct (Hsearch w (shape3_In _ _ _ _ _ Ht Hw)) as (p & Hp & _).
    exists (Z.of_nat p). exact Hp. }
  exists out. split; [exact Hout|]. split; [rewrite Hlen; exact (proj1 Ht)|].
  intros i w Hw.
  destruct (Hsearch w (shape3_nth _ _ _ _ _ _ Ht Hw)) as (p & Hp & Hpk).
  destruct (Hnth i w Hw) as (z & Hz & Hrow).
  assert (z = Z.of_nat p) by congruence. subst z.
  exists p. split; [exact Hpk|].
  split; [intros q Hq; exact (peak_row_unique _ _ _ _ _ Hq Hpk)|].
  split; [exact Hp|]. cbv zeta.
  replace (- (Z.of_nat p - Z.of_nat ref_index))%Z
    with (- Z.of_nat p + Z.of_nat ref_index)%Z by lia.
  split; [exact Hrow | apply np_roll_rotated].
Qed.

(** C7.  Under the same preconditions the output has the length and the
    order of the tagged input, and every returned cutout is the input cutout
    at the same position rolled along the time axis, with its (L, 4) shape
    unchanged. *)
Theorem align_tagged_spont_preserves_shape
  (tagged spont : list waveform) (M L ref_index : nat) :
  shape3 tagged M L 4 ->
  spont_max_index spont = Ok (Z.of_nat ref_index) ->
  6 <= ref_index <= L - 6 ->
  exists out,
    align_tagged_spont tagged spont = Ok out /\
    length out = length tagged /\
    shape3 out M L 4 /\
    forall i w, nth_error tagged i = Some w ->
      exists w' shift,
        nth_error out i = Some w' /\ shape2 w' L 4 /\ rotated_by w w' shift.
Proof.
  intros Ht Href Hr.
  destruct (align_tagged_spont_rolls tagged spont (Z.of_nat ref_index) Href)
    as (out & Hout & Hlen & Hnth).
  { intros w Hw.
    destruct (calc_waveform_max_window w L ref_index
                (shape3_In _ _ _ _ _ Ht Hw)) as (p & Hp & _); [lia | lia |].
    exists (Z.of_nat p). exact Hp. }
  assert (Hrows : forall i w, nth_error tagged i = Some w ->
            exists w' shift, nth_error out i = Some w' /\ shape2 w' L 4 /\
                             rotated_by w w' shift).
  { intros i w Hw. destruct (Hnth i w Hw) as (z & _ & Hrow).
    exists (np_roll w (- z + Z.of_nat ref_index)), (- z + Z.of_nat ref_index)%Z.
    split; [exact Hrow|].
    destruct (shape3_nth _ _ _ _ _ _ Ht Hw) as [HL HC].
    split; [|apply np_roll_rotated].
    split; [rewrite np_roll_length; exact HL | apply np_roll_Forall; exact HC]. }
  exists out. split; [exact Hout|]. split; [exact Hlen|].
  split; [|exact Hrows].
  split; [rewrite Hlen; exact (proj1 Ht)|].
  apply Forall_forall. intros w' Hw'.
  destruct (In_nth_error _ _ Hw') as [i Hi].
  assert (Hlt : i < length tagged).
  { rewrite <- Hlen. apply nth_error_Some. congruence. }
  destruct (nth_error tagged i) as [w|] eqn:Ew;
    [|apply nth_error_None in Ew; lia].
  destruct (Hrows i w Ew) as (w2 & s & Hw2 & Hsh & _).
  congruence.
Qed.

Lemma spike_at_shape (L p : nat) (v : Q) : shape2 (spike_at L p v) L 4.
Proof.
  unfold spike_at. split.
  - rewrite length_map, length_seq. reflexivity.
  - apply Forall_map. apply Forall_forall. intros l _.
    destruct (l =? p); reflexivity.
Qed.

Lemma single_shape (w : waveform) (L : nat) : shape2 w L 4 -> shape3 [w] 1 L 4.
Proof.
  intros Hw. split; [reflexivity|]. constructor; [exact Hw | constructor].
Qed.

(** The scenario of the specification: the reference peak at index 20, the
    peak of the tagged cutout at index 23, a roll by -3. *)
Lemma align_tagged_spont_rolls_to_local_peak_witness :
  shape3 tagged_late 1 32 4 /\
  spont_max_index spont_mid = Ok (Z.of_nat 20) /\
  6 <= 20 <= 32 - 6 /\
  exists out,
    align_tagged_spont tagged_late spont_mid = Ok out /\
    peak_row (fun l c => Qabs (entry (spike_at 32 23 (-5)) l c)) 14 26 23 /\
    nth_error out 0 = Some (np_roll (spike_at 32 23 (-5)) (-3)).
Proof.
  assert (Hs : shape3 tagged_late 1 32 4)
    by (apply single_shape, spike_at_shape).
  assert (Href : spont_max_index spont_mid = Ok (Z.of_nat 20)) by reflexivity.
  assert (Hr : 6 <= 20 <= 32 - 6) by lia.
  split; [exact Hs|]. split; [exact Href|]. split; [exact Hr|].
  destruct (align_tagged_spont_rolls_to_local_peak
              tagged_late spont_mid 1 32 20 Hs Href Hr)
    as (out & Hout & _ & Hrow).
  destruct (Hrow 0 (spike_at 32 23 (-5)) eq_refl)
    as (p & Hpk & _ & Hcalc & Hnth & _).
  assert (Hp : p = 23).
  { assert (E : calc_waveform_max (Z.of_nat 20) (spike_at 32 23 (-5))
                = Ok 23%Z) by reflexivity.
    rewrite E in Hcalc. injection Hcalc as Hcalc. lia. }
  subst p.
  exists out. split; [exact Hout|]. split; [exact Hpk | exact Hnth].
Defined.

Lemma align_tagged_spont_preserves_shape_witness :
  shape3 tagged_late 1 32 4 /\
  spont_max_index spont_mid = Ok (Z.of_nat 20) /\
  6 <= 20 <= 32 - 6 /\
  exists out,
    align_tagged_spont tagged_late spont_mid = Ok out /\
    length out = length tagged_late /\
    shape3 out 1 32 4 /\
    forall i w, nth_error tagged_late i = Some w ->
      exists w' shift,
        nth_error out i = Some w' /\ shape2 w' 32 4 /\ rotated_by w w' shift.
Proof.
  assert (Hs : shape3 tagged_late 1 32 4)
    by (apply single_shape, spike_at_shape).
  assert (Href : spont_max_index spont_mid = Ok (Z.of_nat 20)) by reflexivity.
  assert (Hr : 6 <= 20 <= 32 - 6) by lia.
  split; [exact Hs|]. split; [exact Href|]. split; [exact Hr|].
  exact (align_tagged_spont_preserves_shape tagged_late spont_mid 1 32 20
           Hs Href Hr).
Defined.

(** ** A reference index less than six samples from the start *)

Lemma calc_waveform_max_early (w : waveform) (L r : nat) :
  length w = L -> r < 6 -> r + 6 <= L ->
  slice w (Z.of_nat r - 6) (Z.of_nat r + 6)
  = firstn (12 - L) (skipn (L + r - 6) w).
Proof.
  intros HL Hr HrL.
  replace (Z.of_nat r + 6)%Z with (Z.of_nat (r + 6)) by lia.
  rewrite slice_negative_start by lia.
  rewrite HL. f_equal; [lia | f_equal; lia].
Qed.

Lemma calc_waveform_max_empty_window (w : waveform) (L r : nat) :
  length w = L -> r < 6 -> 12 <= L ->
  calc_waveform_max (Z.of_nat r) w = Raise ValueError.
Proof.
  intros HL Hr H12. unfold calc_waveform_max.
  rewrite (calc_waveform_max_early w L r HL Hr) by lia.
  replace (12 - L) with 0 by lia. reflexivity.
Qed.

(** C8, amended.  When the reference index is below 6 (and [ref+6 <= L])
    the negative start [ref-6] of the window is not clipped to 0: the slice
    counts it from the end, so the window is the rows
    [ [L+ref-6, ref+6) ], of which there are [12-L].  From [L = 12] on the
    window is empty, the peak search raises [ValueError], and so does the
    alignment of any non-empty tagged set. *)
Theorem negative_window_start_counts_from_end
  (tagged spont : list waveform) (M L ref_index : nat) :
  shape3 tagged M L 4 ->
  spont_max_index spont = Ok (Z.of_nat ref_index) ->
  ref_index < 6 -> ref_index + 6 <= L ->
  (forall w, In w tagged ->
     slice w (Z.of_nat ref_index - 6) (Z.of_nat ref_index + 6)
     = firstn (12 - L) (skipn (L + ref_index - 6) w)) /\
  (12 <= L ->
     (forall w, In w tagged ->
        calc_waveform_max (Z.of_nat ref_index) w = Raise ValueError) /\
     (0 < M -> align_tagged_spont tagged spont = Raise ValueError)).
Proof.
  intros Ht Href Hr HrL. split.
  - intros w Hw. apply calc_waveform_max_early; trivial.
    exact (proj1 (shape3_In _ _ _ _ _ Ht Hw)).
  - intros H12.
    assert (Hall : forall w, In w tagged ->
              calc_waveform_max (Z.of_nat ref_index) w = Raise ValueError).
    { intros w Hw. apply (calc_waveform_max_empty_window w L); trivial.
      exact (proj1 (shape3_In _ _ _ _ _ Ht Hw)). }
    split; [exact Hall|].
    intros HM.
    apply (align_tagged_spont_raises tagged spont (Z.of_nat ref_index));
      trivial.
    destruct Ht as [HN _]. intros ->. simpl in HN. lia.
Qed.

Lemma negative_window_start_counts_from_end_witness :
  shape3 tagged_early 1 32 4 /\
  spont_max_index spont_early = Ok (Z.of_nat 2) /\
  2 < 6 /\ 2 + 6 <= 32 /\
  (forall w, In w tagged_early ->
     slice w (Z.of_nat 2 - 6) (Z.of_nat 2 + 6)
     = firstn (12 - 32) (skipn (32 + 2 - 6) w)) /\
  (12 <= 32 ->
     (forall w, In w tagged_early ->
        calc_waveform_max (Z.of_nat 2) w = Raise ValueError) /\
     (0 < 1 -> align_tagged_spont tagged_early spont_early = Raise ValueError)).
Proof.
  assert (Hs : shape3 tagged_early 1 32 4)
    by (apply single_shape, spike_at_shape).
  assert (Href : spont_max_index spont_early = Ok (Z.of_nat 2)) by reflexivity.
  split; [exact Hs|]. split; [exact Href|]. split; [lia|]. split; [lia|].
  apply (negative_window_start_counts_from_end tagged_early spont_early 1 32 2
           Hs Href); lia.
Defined.

(** C8 as stated fails: with the reference peak at index 2 of 32 samples
    the window is not narrowed to [0, 8); the slice [-4:8] is empty and the
    alignment raises instead of completing. *)
Lemma early_reference_alignment_raises :
  shape3 tagged_early 1 32 4 /\
  spont_max_index spont_early = Ok 2%Z /\
  slice (spike_at 32 4 (-5)) (2 - 6) (2 + 6) = [] /\
  slice (spike_at 32 4 (-5)) (2 - 6) (2 + 6) <> firstn 8 (spike_at 32 4 (-5)) /\
  ~ (exists out, align_tagged_spont tagged_early spont_early = Ok out).
Proof.
  split; [apply single_shape, spike_at_shape|].
  split; [reflexivity|]. split; [reflexivity|].
  split; [intros H; vm_compute in H; discriminate H|].
  intros (out & Hout). vm_compute in Hout. discriminate Hout.
Qed.

(** ** Aligning the spontaneous set against itself *)

Lemma mean_abs_at_single (w : waveform) (l c : nat) :
  (mean_abs_at [w] l c == Qabs (entry w l c))%Q.
Proof.
  unfold mean_abs_at. simpl. field.
Qed.

(** C9, amended.  Provided the reference index is at least 6, aligning the
    spontaneous set against itself succeeds, and a cutout whose own largest
    [|sample|] is first reached at the reference index gets the local peak
    [ref_index], hence offset 0, and is returned as it is.  With a single
    cutout in the set, that cutout defines the reference index and the set
    is returned unchanged. *)
Theorem align_spont_against_itself
  (spont : list waveform) (N L ref_index : nat) :
  shape3 spont N L 4 -> 0 < N ->
  spont_max_index spont = Ok (Z.of_nat ref_index) ->
  6 <= ref_index ->
  exists out,
    align_tagged_spont spont spont = Ok out /\
    (forall i w, nth_error spont i = Some w ->
       peak_row (fun l c => Qabs (entry w l c)) 0 L ref_index ->
       calc_waveform_max (Z.of_nat ref_index) w = Ok (Z.of_nat ref_index) /\
       (Z.of_nat ref_index - Z.of_nat ref_index = 0)%Z /\
       nth_error out i = Some w) /\
    (N = 1 -> out = spont).
Proof.
  intros Hs HN Href H6.
  destruct (spont_max_index_inv spont N L _ Hs HN Href) as (r & Er & Hpk).
  apply Nat2Z.inj in Er. subst r.
  assert (HrL : ref_index < L) by (destruct Hpk as [? _]; lia).
  destruct (align_tagged_spont_rolls spont spont (Z.of_nat ref_index) Href)
    as (out & Hout & Hlen & Hnth).
  { intros w Hw.
    destruct (calc_waveform_max_window w L ref_index
                (shape3_In _ _ _ _ _ Hs Hw)) as (p & Hp & _); [lia | lia |].
    exists (Z.of_nat p). exact Hp. }
  assert (Hown : forall i w, nth_error spont i = Some w ->
            peak_row (fun l c => Qabs (entry w l c)) 0 L ref_index ->
            calc_waveform_max (Z.of_nat ref_index) w = Ok (Z.of_nat ref_index) /\
            (Z.of_nat ref_index - Z.of_nat ref_index = 0)%Z /\
            nth_error out i = Some w).
  { intros i w Hw Hwpk.
    destruct (calc_waveform_max_window w L ref_index
                (shape3_nth _ _ _ _ _ _ Hs Hw)) as (p & Hp & Hppk); [lia | lia |].
    assert (p = ref_index).
    { apply (peak_row_unique _ _ _ _ _ Hppk).
      apply (peak_row_restrict _ 0 L); [exact Hwpk | lia | lia | lia]. }
    subst p.
    split; [exact Hp|]. split; [lia|].
    destruct (Hnth i w Hw) as (z & Hz & Hrow).
    assert (z = Z.of_nat ref_index) by congruence. subst z.
    replace (- Z.of_nat ref_index + Z.of_nat ref_index)%Z with 0%Z in Hrow by lia.
    rewrite np_roll_zero in Hrow. exact Hrow. }
  exists out. split; [exact Hout|]. split; [exact Hown|].
  intros ->.
  destruct Hs as [HlenS HS].
  destruct spont as [|w [|w2 rest]]; try discriminate HlenS.
  destruct out as [|o [|o2 orest]]; try discriminate Hlen.
  destruct (Hown 0 w eq_refl) as (_ & _ & Ho).
  - apply (peak_row_ext (mean_abs_at [w])); [|exact Hpk].
    intros l c _ _. apply mean_abs_at_single.
  - simpl in Ho. congruence.
Qed.

Lemma align_spont_against_itself_witness :
  shape3 spont_mid 1 32 4 /\ 0 < 1 /\
  spont_max_index spont_mid = Ok (Z.of_nat 20) /\ 6 <= 20 /\
  align_tagged_spont spont_mid spont_mid = Ok spont_mid.
Proof.
  assert (Hs : shape3 spont_mid 1 32 4)
    by (apply single_shape, spike_at_shape).
  assert (Href : spont_max_index spont_mid = Ok (Z.of_nat 20)) by reflexivity.
  split; [exact Hs|]. split; [lia|]. split; [exact Href|]. split; [lia|].
  destruct (align_spont_against_itself spont_mid 1 32 20 Hs) as (out & Hout & _ & H1);
    [lia | exact Href | lia |].
  rewrite Hout, (H1 eq_refl). reflexivity.
Defined.

(** C9 as stated fails: with the peak of the only cutout at index 2 the
    window [-4:8] is empty, and aligning the set against itself raises
    instead of returning the cutout. *)
Lemma self_alignment_with_early_peak_raises :
  shape3 spont_early 1 32 4 /\
  spont_max_index spont_early = Ok 2%Z /\
  peak_row (mean_abs_at spont_early) 0 32 2 /\
  align_tagged_spont spont_early spont_early = Raise ValueError /\
  ~ (exists out,
       align_tagged_spont spont_early spont_early = Ok out /\
       nth_error out 0 = Some (spike_at 32 2 7)).
Proof.
  assert (Hs : shape3 spont_early 1 32 4)
    by (apply single_shape, spike_at_shape).
  split; [exact Hs|]. split; [reflexivity|].
  split.
  - destruct (spont_max_index_inv spont_early 1 32 2%Z Hs) as (r & Er & Hr);
      [lia | reflexivity |].
    assert (r = 2) by lia. subst r. exact Hr.
  - split; [reflexivity|].
    intros (out & Hout & _). vm_compute in Hout. discriminate Hout.
Qed.

(** * Baseline subtraction *)

(** ** Sums of rationals *)

Lemma Qsum_map_ext (A : Type) (f g : A -> Q) (l : list A) :
  (forall x, In x l -> (f x == g x)%Q) ->
  (Qsum (map f l) == Qsum (map g l))%Q.
Proof.
  induction l as [|x l IH]; intros H; simpl; [reflexivity|].
  rewrite (H x (or_introl eq_refl)), IH; [reflexivity|].
  intros y Hy. apply H. right. exact Hy.
Qed.

Lemma Qsum_map_scale (A : Type) (f : A -> Q) (k : Q) (l : list A) :
  (Qsum (map (fun x => f x * k) l) == Qsum (map f l) * k)%Q.
Proof.
  induction l as [|x l IH]; simpl; [ring|]. rewrite IH. ring.
Qed.

Lemma inject_nat_succ (n : nat) :
  (inject_Z (Z.of_nat (S n)) == inject_Z (Z.of_nat n) + 1)%Q.
Proof.
  rewrite Nat2Z.inj_succ. unfold Z.succ. rewrite inject_Z_plus. reflexivity.
Qed.

Lemma Qsum_map_minus_const (A : Type) (f : A -> Q) (k : Q) (l : list A) :
  (Qsum (map (fun x => f x - k) l)
   == Qsum (map f l) - inject_Z (Z.of_nat (length l)) * k)%Q.
Proof.
  induction l as [|x l IH].
  - simpl. ring.
  - cbn [map length]. change (Qsum (?y :: ?r)) with (y + Qsum r)%Q.
    rewrite IH, inject_nat_succ.
    change (Qsum (f x :: map f l)) with (f x + Qsum (map f l))%Q. ring.
Qed.

Lemma inject_nat_nonzero (n : nat) :
  0 < n -> ~ (inject_Z (Z.of_nat n) == 0)%Q.
Proof.
  intros Hn H. unfold Qeq in H. simpl in H. lia.
Qed.

(** ** Sums down a channel *)

(** The sum of channel [c] over the rows of one array. *)
Lemma column_sum_madd (m p : list (list Q)) (C c : nat) :
  c < C ->
  forall L, shape2 m L C -> shape2 p L C ->
  (Qsum (map (fun row => nth c row 0) (madd m p))
   == Qsum (map (fun row => nth c row 0) m)
      + Qsum (map (fun row => nth c row 0) p))%Q.
Proof.
  intros Hc. revert p.
  induction m as [|r m IH]; intros [|r' p] L [HmL HmC] [HpL HpC];
    simpl in *; try (subst L; discriminate); [ring|].
  inversion HmC; subst. inversion HpC; subst.
  rewrite (IH p (length m)); [| split; [reflexivity | assumption]
                              | split; [congruence | assumption]].
  unfold vadd at 1.
  rewrite (zip_with_nth Qplus 0 0 0)%Q by congruence.
  ring.
Qed.

Lemma column_sum_fold_madd (ws : list waveform) (L C c : nat) :
  c < C -> Forall (fun w => shape2 w L C) ws ->
  forall w, shape2 w L C ->
  (Qsum (map (fun row => nth c row 0) (fold_left madd ws w))
   == Qsum (map (fun row => nth c row 0) w)
      + Qsum (map (fun w' => Qsum (map (fun row => nth c row 0) w')) ws))%Q.
Proof.
  intros Hc Hws.
  induction Hws as [|w' ws Hw' Hws IH]; intros w Hw; simpl.
  - ring.
  - rewrite IH by (apply madd_shape; assumption).
    rewrite (column_sum_madd w w' C c Hc L Hw Hw'). ring.
Qed.

Lemma column_sum_scaled (m : list (list Q)) (L C c : nat) (k : Q) :
  shape2 m L C -> c < C ->
  (Qsum (map (fun row => nth c row 0) (map (map (fun s => s / k)) m))
   == Qsum (map (fun row => nth c row 0) m) / k)%Q.
Proof.
  intros [_ HC] Hc. rewrite map_map. unfold Qdiv.
  rewrite <- Qsum_map_scale.
  apply Qsum_map_ext. intros row Hrow.
  rewrite Forall_forall in HC.
  rewrite (nth_indep _ 0 (0 * / k))%Q by (rewrite length_map, (HC row Hrow); exact Hc).
  rewrite (map_nth (fun s => s * / k)%Q). reflexivity.
Qed.

Lemma column_sum_mean_axis0_3 (a : list waveform) (N L C c : nat) :
  shape3 a N L C -> 0 < N -> c < C ->
  (Qsum (map (fun row => nth c row 0) (mean_axis0_3 a))
   == Qsum (map (fun w => Qsum (map (fun row => nth c row 0) w)) a)
      / inject_Z (Z.of_nat N))%Q.
Proof.
  intros [HN Ha] Hpos Hc. destruct a as [|w ws]; [simpl in HN; lia|].
  inversion Ha as [|? ? Hw Hws]; subst.
  unfold mean_axis0_3.
  rewrite (column_sum_scaled _ L C c) by
    (try apply fold_left_madd_shape; assumption).
  rewrite (column_sum_fold_madd ws L C c Hc Hws w Hw).
  reflexivity.
Qed.

(** ** The offset and the subtraction *)

Lemma fold_left_vadd_length (rs : list (list Q)) (C : nat) :
  Forall (fun r => length r = C) rs ->
  forall r, length r = C -> length (fold_left vadd rs r) = C.
Proof.
  induction 1 as [|r' rs Hr' Hrs IH]; intros r Hr; simpl; [exact Hr|].
  apply IH. unfold vadd. rewrite zip_with_length; congruence.
Qed.

Lemma fold_left_vadd_nth (rs : list (list Q)) (C c : nat) :
  c < C -> Forall (fun r => length r = C) rs ->
  forall r, length r = C ->
  (nth c (fold_left vadd rs r) 0
   == nth c r 0 + Qsum (map (fun row => nth c row 0) rs))%Q.
Proof.
  intros Hc Hrs.
  induction Hrs as [|r' rs Hr' Hrs IH]; intros r Hr; simpl.
  - ring.
  - rewrite IH by (unfold vadd; rewrite zip_with_length; congruence).
    unfold vadd at 1.
    rewrite (zip_with_nth Qplus 0 0 0)%Q by congruence.
    ring.
Qed.

Lemma mean_axis0_2_length (m : list (list Q)) (L C : nat) :
  shape2 m L C -> 0 < L -> length (mean_axis0_2 m) = C.
Proof.
  intros [HL HC] Hpos. destruct m as [|r rs]; [simpl in HL; lia|].
  inversion HC; subst. unfold mean_axis0_2.
  rewrite length_map. apply fold_left_vadd_length; trivial.
Qed.

Lemma mean_axis0_2_nth (m : list (list Q)) (L C c : nat) :
  shape2 m L C -> 0 < L -> c < C ->
  (nth c (mean_axis0_2 m) 0
   == Qsum (map (fun row => nth c row 0) m) / inject_Z (Z.of_nat L))%Q.
Proof.
  intros [HL HC] Hpos Hc. destruct m as [|r rs]; [simpl in HL; lia|].
  inversion HC as [|? ? Hr Hrs]; subst. unfold mean_axis0_2.
  set (k := inject_Z (Z.of_nat (length (r :: rs)))).
  rewrite (nth_indep _ 0 (0 / k))%Q
    by (rewrite length_map, (fold_left_vadd_length rs (length r)); trivial).
  rewrite (map_nth (fun s => s / k)%Q).
  rewrite (fold_left_vadd_nth rs (length r) c Hc Hrs r eq_refl).
  reflexivity.
Qed.

Lemma inject_nat_mult (n l : nat) :
  (inject_Z (Z.of_nat (n * l))
   == inject_Z (Z.of_nat n) * inject_Z (Z.of_nat l))%Q.
Proof.
  rewrite Nat2Z.inj_mul, inject_Z_mult. reflexivity.
Qed.

Lemma baseline_offset_length (a : list waveform) (N L C : nat) :
  shape3 a N L C -> 0 < N -> 0 < L -> length (baseline_offset a) = C.
Proof.
  intros Ha HN HL. unfold baseline_offset.
  apply (mean_axis0_2_length _ L); [|exact HL].
  apply (mean_axis0_3_shape a N); assumption.
Qed.

(** The mean of the means along the two axes is the mean over all samples
    of all cutouts. *)
Lemma baseline_offset_nth (a : list waveform) (N L C c : nat) :
  shape3 a N L C -> 0 < N -> 0 < L -> c < C ->
  (nth c (baseline_offset a) 0 == channel_mean a L c)%Q.
Proof.
  intros Ha HN HL Hc. unfold baseline_offset, channel_mean.
  rewrite (mean_axis0_2_nth _ L C c (mean_axis0_3_shape a N L C Ha HN) HL Hc).
  rewrite (column_sum_mean_axis0_3 a N L C c Ha HN Hc).
  rewrite (proj1 Ha), inject_nat_mult.
  pose proof (inject_nat_nonzero N HN). pose proof (inject_nat_nonzero L HL).
  field. split; assumption.
Qed.

Lemma subtract_offset_shape (a : list waveform) (off : list Q) (N L C : nat) :
  shape3 a N L C -> length off = C -> shape3 (subtract_offset a off) N L C.
Proof.
  intros [HN Ha] Hoff. unfold subtract_offset. split.
  - rewrite length_map. exact HN.
  - apply Forall_map.
    apply (Forall_impl _ (P := fun w => shape2 w L C)); [|exact Ha].
    intros w [HL HC]. split.
    + rewrite length_map. exact HL.
    + apply Forall_map.
      apply (Forall_impl _ (P := fun r => length r = C)); [|exact HC].
      intros r Hr. rewrite zip_with_length; congruence.
Qed.

Lemma subtract_offset_entry (a : list waveform) (off : list Q)
  (N L C n l c : nat) :
  shape3 a N L C -> length off = C -> n < N -> l < L -> c < C ->
  entry (nth n (subtract_offset a off) []) l c
  = (entry (nth n a []) l c - nth c off 0)%Q.
Proof.
  intros [HN Ha] Hoff Hn Hl Hc. unfold subtract_offset, entry.
  set (g := fun row : list Q => zip_with Qminus row off).
  change (@nil (list Q)) with (map g []) at 1. rewrite map_nth.
  assert (Hw : shape2 (nth n a []) L C).
  { rewrite Forall_forall in Ha. apply Ha. apply nth_In. lia. }
  rewrite (nth_indep (map g (nth n a [])) [] (g []))
    by (rewrite length_map; destruct Hw; lia).
  rewrite map_nth. unfold g.
  apply zip_with_nth; [rewrite (shape2_row _ L C l Hw Hl) | rewrite Hoff];
    exact Hc.
Qed.

Lemma channel_mean_subtract (a : list waveform) (off : list Q) (N L C c : nat) :
  shape3 a N L C -> length off = C -> 0 < N -> 0 < L -> c < C ->
  (channel_mean (subtract_offset a off) L c
   == channel_mean a L c - nth c off 0)%Q.
Proof.
  intros [HN Ha] Hoff HposN HposL Hc.
  unfold channel_mean, subtract_offset, waveform in *.
  rewrite length_map, map_map, HN.
  rewrite Forall_forall in Ha.
  rewrite (Qsum_map_ext _ _
             (fun w => Qsum (map (fun row => nth c row 0) w)
                       - inject_Z (Z.of_nat L) * nth c off 0)%Q).
  - rewrite Qsum_map_minus_const, HN, inject_nat_mult.
    pose proof (inject_nat_nonzero N HposN).
    pose proof (inject_nat_nonzero L HposL).
    field. split; assumption.
  - intros w Hw. destruct (Ha w Hw) as [HL HC].
    rewrite map_map, <- HL, <- Qsum_map_minus_const.
    apply Qsum_map_ext. intros row Hrow.
    rewrite Forall_forall in HC.
    rewrite (zip_with_nth Qminus 0 0 0)%Q
      by (rewrite ?Hoff, ?(HC row Hrow); exact Hc).
    reflexivity.
Qed.

(** C6.  For a set of shape (N, L, C) with at least one cutout and one
    sample, the baseline step computes one number per channel, the mean of
    that channel over all samples of all cutouts, subtracts it from every
    sample of every cutout, and leaves every channel with mean zero over
    the whole set. *)
Theorem remove_baseline_centers_channels (a : list waveform) (N L C : nat) :
  shape3 a N L C -> 0 < N -> 0 < L ->
  length (baseline_offset a) = C /\
  (forall c, c < C ->
     (nth c (baseline_offset a) 0 == channel_mean a L c)%Q) /\
  shape3 (remove_baseline a) N L C /\
  (forall n l c, n < N -> l < L -> c < C ->
     entry (nth n (remove_baseline a) []) l c
     = (entry (nth n a []) l c - nth c (baseline_offset a) 0)%Q) /\
  (forall c, c < C ->
     (channel_mean (remove_baseline a) L c == 0)%Q /\
     (nth c (baseline_offset (remove_baseline a)) 0 == 0)%Q).
Proof.
  intros Ha HN HL.
  pose proof (baseline_offset_length a N L C Ha HN HL) as Hlen.
  pose proof (subtract_offset_shape a _ N L C Ha Hlen) as Hsh.
  split; [exact Hlen|].
  split; [intros c Hc; apply (baseline_offset_nth a N L C); assumption|].
  split; [exact Hsh|].
  split; [intros n l c Hn Hl Hc;
          apply (subtract_offset_entry a _ N L C); assumption|].
  intros c Hc.
  assert (Hz : (channel_mean (remove_baseline a) L c == 0)%Q).
  { unfold remove_baseline.
    rewrite (channel_mean_subtract a _ N L C c Ha Hlen HN HL Hc).
    rewrite (baseline_offset_nth a N L C c Ha HN HL Hc). ring. }
  split; [exact Hz|].
  rewrite (baseline_offset_nth _ N L C c Hsh HN HL Hc). exact Hz.
Qed.

Lemma remove_baseline_centers_channels_witness :
  shape3 two_sample_set 1 2 4 /\ 0 < 1 /\ 0 < 2 /\
  length (baseline_offset two_sample_set) = 4 /\
  (forall c, c < 4 ->
     (nth c (baseline_offset two_sample_set) 0
      == channel_mean two_sample_set 2 c)%Q) /\
  shape3 (remove_baseline two_sample_set) 1 2 4 /\
  (forall n l c, n < 1 -> l < 2 -> c < 4 ->
     entry (nth n (remove_baseline two_sample_set) []) l c
     = (entry (nth n two_sample_set []) l c
        - nth c (baseline_offset two_sample_set) 0)%Q) /\
  (forall c, c < 4 ->
     (channel_mean (remove_baseline two_sample_set) 2 c == 0)%Q /\
     (nth c (baseline_offset (remove_baseline two_sample_set)) 0 == 0)%Q).
Proof.
  split; [exact two_sample_set_shape|]. split; [lia|]. split; [lia|].
  apply (remove_baseline_centers_channels two_sample_set 1 2 4);
    [exact two_sample_set_shape | lia | lia].
Defined.

(** * Further properties of the classifier *)

Lemma count_below_split {A : Type} (p : A -> bool) (a : list A) :
  forall r,
    (forall j e, j < r -> nth_error a j = Some e -> p e = true) ->
    (forall j e, r <= j -> nth_error a j = Some e -> p e = false) ->
    r <= length a ->
    length (filter p a) = r.
Proof.
  induction a as [|x a IH]; intros r Hlo Hhi Hr; simpl in *.
  - lia.
  - destruct r as [|r].
    + rewrite (Hhi 0 x (Nat.le_refl 0) eq_refl).
      apply (IH 0); [intros j e Hj; lia | | lia].
      intros j e _ He. apply (Hhi (S j) e); [lia | exact He].
    + rewrite (Hlo 0 x (Nat.lt_0_succ r) eq_refl). simpl. f_equal.
      apply (IH r); [| | lia].
      * intros j e Hj He. apply (Hlo (S j) e); [lia | exact He].
      * intros j e Hj He. apply (Hhi (S j) e); [lia | exact He].
Qed.

(** An interval shorter than [2 ^ fuel] is searched to the end: more fuel
    does not change the answer. *)
Lemma bisect_loop_enough_fuel {T : Type} (ltb : T -> T -> bool)
  (a : list T) (x : T) (fuel : nat) :
  forall lo hi extra,
    hi - lo < 2 ^ fuel ->
    bisect_loop ltb (fuel + extra) a x lo hi = bisect_loop ltb fuel a x lo hi.
Proof.
  induction fuel as [|fuel IH]; intros lo hi extra Hsize.
  - simpl in Hsize. cbn [bisect_loop].
    destruct extra as [|extra]; [reflexivity|].
    cbn [Nat.add bisect_loop].
    destruct (Nat.ltb_spec lo hi) as [H|_]; [lia | reflexivity].
  - cbn [Nat.add bisect_loop].
    destruct (Nat.ltb_spec lo hi) as [Hlt|_]; [|reflexivity].
    pose proof (half_between lo hi Hlt) as Hm.
    pose proof (Nat.div_mod_eq (lo + hi) 2) as E.
    pose proof (Nat.mod_upper_bound (lo + hi) 2) as U.
    rewrite Nat.pow_succ_r' in Hsize.
    destruct (nth_error a ((lo + hi) / 2)) as [am|]; [|reflexivity].
    destruct (ltb am x); apply IH; lia.
Qed.

(** X2.  The binary search behind [calc_is_tagged] is logarithmic: on any
    array of [n] events, sorted or not, [floor(log2 n) + 1] iterations of
    the loop already give the insertion point. *)
Theorem bisect_left_logarithmic {T : Type} (ltb : T -> T -> bool)
  (a : list T) (x : T) :
  bisect_loop ltb (S (Nat.log2 (length a))) a x 0 (length a)
  = bisect_left ltb a x.
Proof.
  unfold bisect_left.
  set (n := length a).
  assert (Hlog : n - 0 < 2 ^ S (Nat.log2 n)).
  { destruct (Nat.eq_dec n 0) as [->|Hn]; [simpl; lia|].
    pose proof (Nat.log2_spec n). lia. }
  assert (Hlin : n - 0 < 2 ^ n).
  { pose proof (Nat.pow_gt_lin_r 2 n). lia. }
  rewrite <- (bisect_loop_enough_fuel ltb a x _ 0 n n Hlog).
  rewrite <- (bisect_loop_enough_fuel ltb a x n 0 n (S (Nat.log2 n)) Hlin).
  f_equal. lia.
Qed.

(** X3.  [calc_is_tagged] never raises: whatever the events (sorted or not),
    the spike and the window, the index handed to [event_stamps[...]] is
    -1 or a valid position, and the answer is a boolean. *)
Theorem calc_is_tagged_never_raises {T : Type} (ltb : T -> T -> bool)
  (sub : T -> T -> T) (events : list T) (t w : T) :
  (-1 <= Z.of_nat (bisect_left ltb events t) - 1
      < Z.of_nat (length events))%Z /\
  exists b, calc_is_tagged ltb sub events t w = Ok b.
Proof.
  split.
  - pose proof (bisect_left_le_length ltb events t). lia.
  - apply calc_is_tagged_total.
Qed.

Lemma filter_implies_subsequence {A : Type} (p q : A -> bool) (l : list A) :
  (forall x, In x l -> p x = true -> q x = true) ->
  subsequence (filter p l) (filter q l).
Proof.
  induction l as [|x l IH]; intros H; simpl.
  - constructor.
  - assert (IH' : subsequence (filter p l) (filter q l))
      by (apply IH; intros y Hy; apply H; right; exact Hy).
    destruct (p x) eqn:Ep.
    + rewrite (H x (or_introl eq_refl) Ep). constructor. exact IH'.
    + destruct (q x); [constructor|]; exact IH'.
Qed.

Section ClassifierProperties.

Context {T : Type}.
Variable ltb : T -> T -> bool.
Variable sub : T -> T -> T.

Hypothesis ltb_irrefl : forall x, ltb x x = false.
Hypothesis ltb_trans :
  forall x y z, ltb x y = true -> ltb y z = true -> ltb x z = true.

(** X1.  On events sorted strictly ascending, [bisect_left] returns the
    number of events strictly before the spike. *)
Theorem bisect_left_counts_events_before (events : list T) (t : T) :
  ascending ltb events ->
  bisect_left ltb events t = length (filter (fun e => ltb e t) events).
Proof.
  intros Ha.
  destruct (bisect_left_sorted ltb ltb_trans events t Ha) as [Hlo Hhi].
  symmetry. apply count_below_split; trivial.
  apply bisect_left_le_length.
Qed.

(** X4.  For every non-empty spike sequence, whatever the events (sorted or
    not), [assign_timestamp_type] returns a stable partition: the two
    outputs together are a permutation of the spikes, each keeps the order of
    the spikes, every spike of the first output is one [calc_is_tagged]
    accepts and every spike of the second is one it rejects. *)
Theorem assign_timestamp_type_stable_partition
  (events spikes : list T) (w : T) :
  spikes <> [] ->
  exists tagged spont,
    assign_timestamp_type ltb sub events spikes w = Ok (tagged, spont) /\
    length tagged + length spont = length spikes /\
    Permutation (tagged ++ spont) spikes /\
    subsequence tagged spikes /\ subsequence spont spikes /\
    (forall s, In s tagged -> calc_is_tagged ltb sub events s w = Ok true) /\
    (forall s, In s spont -> calc_is_tagged ltb sub events s w = Ok false).
Proof.
  intros Hne. eexists. eexists.
  split; [apply assign_timestamp_type_nonempty; exact Hne|].
  split; [apply filter_split_length|].
  split; [apply filter_split_permutation|].
  split; [apply filter_subsequence|].
  split; [apply filter_subsequence|].
  split; intros s Hs; apply filter_In in Hs; destruct Hs as [_ Hs];
    rewrite tagged_by_spec.
  - rewrite Hs. reflexivity.
  - apply negb_true_iff in Hs. rewrite Hs. reflexivity.
Qed.

(** X5.  Widening the window never untags a spike: a spike tagged with
    window [w] is tagged with every larger window [w'], for any events, and
    the tagged output for [w] is a subsequence of the tagged output for
    [w']. *)
Theorem wider_window_keeps_tagged (events : list T) (w w' : T) :
  ltb w w' = true ->
  (forall t, calc_is_tagged ltb sub events t w = Ok true ->
             calc_is_tagged ltb sub events t w' = Ok true) /\
  (forall spikes, spikes <> [] ->
     exists tagged spont tagged' spont',
       assign_timestamp_type ltb sub events spikes w = Ok (tagged, spont) /\
       assign_timestamp_type ltb sub events spikes w' = Ok (tagged', spont') /\
       subsequence tagged tagged' /\ subsequence spont' spont).
Proof.
  intros Hw.
  assert (Hmono : forall t, calc_is_tagged ltb sub events t w = Ok true ->
                            calc_is_tagged ltb sub events t w' = Ok true).
  { intros t Ht.
    destruct (calc_is_tagged_cases ltb sub events t w)
      as [[_ H]|(i & e & Hi & Hn & H)]; rewrite H in Ht; [discriminate Ht|].
    destruct (calc_is_tagged_cases ltb sub events t w')
      as [[H0 _]|(i' & e' & Hi' & Hn' & H')]; [congruence|].
    rewrite H'. f_equal.
    assert (i' = i) by congruence. subst i'.
    assert (e' = e) by congruence. subst e'.
    apply ltb_trans with w; [congruence | exact Hw]. }
  split; [exact Hmono|].
  intros spikes Hne. do 4 eexists.
  split; [apply assign_timestamp_type_nonempty; exact Hne|].
  split; [apply assign_timestamp_type_nonempty; exact Hne|].
  split; apply filter_implies_subsequence; intros s _ Hs.
  - pose proof (tagged_by_spec ltb sub events w s) as E.
    rewrite Hs in E. apply Hmono in E.
    rewrite tagged_by_spec in E. congruence.
  - apply negb_true_iff in Hs. apply negb_true_iff.
    destruct (tagged_by ltb sub events w s) eqn:Es; [|reflexivity].
    pose proof (tagged_by_spec ltb sub events w s) as E.
    rewrite Es in E. apply Hmono in E.
    rewrite tagged_by_spec in E. congruence.
Qed.

(** Subtraction turns a later event into a shorter delay. *)
Hypothesis later_event_is_closer :
  forall t e e' w,
    ltb e e' = true -> ltb (sub t e) w = true -> ltb (sub t e') w = true.

(** X6.  The docstring of [calc_is_tagged] ("just after any of the events")
    holds on sorted events: looking only at the latest event before the
    spike, the function answers [True] exactly when some event lies strictly
    before the spike and less than the window away from it. *)
Theorem calc_is_tagged_iff_just_after_any_event (events : list T) (t w : T) :
  ascending ltb events ->
  (calc_is_tagged ltb sub events t w = Ok true <->
   exists e, In e events /\ ltb e t = true /\ ltb (sub t e) w = true).
Proof.
  intros Ha.
  destruct (bisect_left_sorted ltb ltb_trans events t Ha) as [Hlo Hhi].
  split.
  - intros Hc.
    destruct (calc_is_tagged_cases ltb sub events t w)
      as [[_ H]|(i & e & Hi & Hn & H)]; rewrite H in Hc; [discriminate Hc|].
    exists e. split; [eapply nth_error_In; exact Hn|].
    split; [apply (Hlo i); trivial; lia | congruence].
  - intros (e & Hin & Hlt & Hwin).
    destruct (In_nth_error _ _ Hin) as [j Hj].
    assert (Hjb : j < bisect_left ltb events t).
    { destruct (Nat.lt_ge_cases j (bisect_left ltb events t)) as [H|H];
        [exact H|].
      rewrite (Hhi j e H Hj) in Hlt. discriminate Hlt. }
    destruct (calc_is_tagged_cases ltb sub events t w)
      as [[H0 _]|(i & e' & Hi & Hn & H)]; [lia|].
    rewrite H. f_equal.
    destruct (Nat.eq_dec j i) as [->|Hne].
    + congruence.
    + apply (later_event_is_closer t e e' w); [|exact Hwin].
      apply (ascending_nth ltb ltb_trans events Ha j i); trivial. lia.
Qed.

End ClassifierProperties.

Lemma Qminus_later_event_is_closer (t e e' w : Q) :
  Qltb e e' = true -> Qltb (t - e) w = true -> Qltb (t - e') w = true.
Proof.
  rewrite !Qltb_lt. intros He Hw.
  apply Qlt_trans with (t - e)%Q; [|exact Hw].
  unfold Qminus. rewrite (Qplus_comm t (- e')), (Qplus_comm t (- e)).
  apply Qplus_lt_l. apply Qopp_lt_compat. exact He.
Qed.

Lemma bisect_left_counts_events_before_witness :
  (ascending Qltb [1; 2] /\
   bisect_left Qltb [1; 2] 1.5
   = length (filter (fun e => Qltb e 1.5) [1; 2]))%Q.
Proof.
  assert (Ha : ascending Qltb [1; 2]%Q) by (repeat constructor).
  split; [exact Ha|].
  exact (bisect_left_counts_events_before Qltb Qltb_trans [1; 2]%Q 1.5%Q Ha).
Defined.

Lemma assign_timestamp_type_stable_partition_witness :
  [1.002; 1.5; 2.005]%Q <> [] /\
  exists tagged spont,
    assign_timestamp_type Qltb Qminus [1; 2]%Q [1.002; 1.5; 2.005]%Q 0.01%Q
    = Ok (tagged, spont) /\
    length tagged + length spont = length [1.002; 1.5; 2.005]%Q /\
    Permutation (tagged ++ spont) [1.002; 1.5; 2.005]%Q /\
    subsequence tagged [1.002; 1.5; 2.005]%Q /\
    subsequence spont [1.002; 1.5; 2.005]%Q /\
    (forall s, In s tagged ->
               calc_is_tagged Qltb Qminus [1; 2]%Q s 0.01%Q = Ok true) /\
    (forall s, In s spont ->
               calc_is_tagged Qltb Qminus [1; 2]%Q s 0.01%Q = Ok false).
Proof.
  assert (Hne : [1.002; 1.5; 2.005]%Q <> []) by discriminate.
  split; [exact Hne|].
  exact (assign_timestamp_type_stable_partition Qltb Qminus
           [1; 2]%Q [1.002; 1.5; 2.005]%Q 0.01%Q Hne).
Defined.

Lemma wider_window_keeps_tagged_witness :
  (Qltb 0.01 0.02 = true /\
   (forall t, calc_is_tagged Qltb Qminus [1; 2] t 0.01 = Ok true ->
              calc_is_tagged Qltb Qminus [1; 2] t 0.02 = Ok true) /\
   (forall spikes, spikes <> [] ->
      exists tagged spont tagged' spont',
        assign_timestamp_type Qltb Qminus [1; 2] spikes 0.01
        = Ok (tagged, spont) /\
        assign_timestamp_type Qltb Qminus [1; 2] spikes 0.02
        = Ok (tagged', spont') /\
        subsequence tagged tagged' /\ subsequence spont' spont))%Q.
Proof.
  assert (Hw : Qltb 0.01 0.02 = true) by reflexivity.
  split; [exact Hw|].
  exact (wider_window_keeps_tagged Qltb Qminus Qltb_trans
           [1; 2]%Q 0.01%Q 0.02%Q Hw).
Defined.

Lemma calc_is_tagged_iff_just_after_any_event_witness :
  (ascending Qltb [1; 2] /\
   (calc_is_tagged Qltb Qminus [1; 2] 2.005 0.01 = Ok true <->
    exists e, In e [1; 2] /\ Qltb e 2.005 = true /\
              Qltb (2.005 - e) 0.01 = true))%Q.
Proof.
  assert (Ha : ascending Qltb [1; 2]%Q) by (repeat constructor).
  split; [exact Ha|].
  exact (calc_is_tagged_iff_just_after_any_event Qltb Qminus Qltb_trans
           Qminus_later_event_is_closer [1; 2]%Q 2.005%Q 0.01%Q Ha).
Defined.

(** * Further properties of the aligner *)

Lemma mapM_ok_inv {A B : Type} (f : A -> result B) (xs : list A) :
  forall ys, mapM f xs = Ok ys ->
    length ys = length xs /\
    forall i x, nth_error xs i = Some x ->
      exists y, f x = Ok y /\ nth_error ys i = Some y.
Proof.
  induction xs as [|x r IH]; intros ys H; simpl in H.
  - injection H as <-. split; [reflexivity|].
    intros [|i] z Hz; discriminate Hz.
  - destruct (f x) as [y|e] eqn:Ey; [|discriminate H]. simpl in H.
    destruct (mapM f r) as [ys'|e] eqn:Er; [|discriminate H]. simpl in H.
    injection H as <-. destruct (IH ys' eq_refl) as [Hlen Hnth].
    split; [simpl; congruence|].
    intros [|i] z Hz; simpl in Hz.
    + injection Hz as <-. exists y. split; [exact Ey | reflexivity].
    + apply Hnth. exact Hz.
Qed.

Lemma align_tagged_spont_ok_inv (tagged spont out : list waveform) :
  align_tagged_spont tagged spont = Ok out ->
  exists ref,
    spont_max_index spont = Ok ref /\
    length out = length tagged /\
    forall i w, nth_error tagged i = Some w ->
      exists p, calc_waveform_max ref w = Ok p /\
                nth_error out i = Some (np_roll w (- p + ref)).
Proof.
  unfold align_tagged_spont. intros H.
  destruct (spont_max_index spont) as [ref|e]; [|discriminate H].
  cbn [bind] in H.
  destruct (mapM (calc_waveform_max ref) tagged) as [offs|e] eqn:Eo;
    [|discriminate H].
  cbn [bind] in H. injection H as <-.
  destruct (mapM_ok_inv _ _ _ Eo) as [Hlen Hnth].
  exists ref. split; [reflexivity|].
  split; [rewrite length_map, length_combine; lia|].
  intros i w Hw. destruct (Hnth i w Hw) as (p & Hp & Hpi).
  exists p. split; [exact Hp|].
  pose proof (nth_error_combine tagged offs i w p Hw Hpi) as E.
  unfold waveform in *. rewrite nth_error_map, E. reflexivity.
Qed.

Lemma np_roll_permutation {A : Type} (a : list A) (s : Z) :
  Permutation a (np_roll a s).
Proof.
  unfold np_roll. destruct (length a =? 0); [apply Permutation_refl|].
  set (k := length a - Z.to_nat (s mod Z.of_nat (length a))).
  rewrite <- (firstn_skipn k a) at 1. apply Permutation_app_comm.
Qed.

Lemma Qsum_permutation (l l' : list Q) :
  Permutation l l' -> (Qsum l == Qsum l')%Q.
Proof.
  induction 1 as [|x l l' _ IH|x y l|l l' l'' _ IH1 _ IH2]; simpl.
  - reflexivity.
  - rewrite IH. reflexivity.
  - ring.
  - rewrite IH1. exact IH2.
Qed.

(** The row of a cutout of [L] samples found at [ref] after a roll by
    [-p + ref] is the row that was at [p]. *)
Lemma np_roll_lands {A : Type} (w : list A) (p ref : nat) :
  p < length w -> ref < length w ->
  nth_error (np_roll w (- Z.of_nat p + Z.of_nat ref)) ref = nth_error w p.
Proof.
  intros Hp Href.
  destruct (np_roll_rotated w (- Z.of_nat p + Z.of_nat ref)) as [_ H].
  rewrite <- (H p Hp). f_equal.
  replace (Z.of_nat p + (- Z.of_nat p + Z.of_nat ref))%Z
    with (Z.of_nat ref) by lia.
  rewrite Z.mod_small by lia. lia.
Qed.

(** X7.  Under the preconditions of the alignment ([6 <= ref_index <= L-6])
    the row of each tagged cutout that holds its local peak is found at
    [ref_index] in the returned cutout. *)
Theorem align_tagged_spont_moves_peak_to_reference
  (tagged spont : list waveform) (M L ref_index : nat) :
  shape3 tagged M L 4 ->
  spont_max_index spont = Ok (Z.of_nat ref_index) ->
  6 <= ref_index <= L - 6 ->
  exists out,
    align_tagged_spont tagged spont = Ok out /\
    forall i w, nth_error tagged i = Some w ->
      exists local_peak w',
        calc_waveform_max (Z.of_nat ref_index) w = Ok (Z.of_nat local_peak) /\
        nth_error out i = Some w' /\
        nth_error w' ref_index = nth_error w local_peak.
Proof.
  intros Ht Href Hr.
  destruct (align_tagged_spont_rolls tagged spont (Z.of_nat ref_index) Href)
    as (out & Hout & _ & Hnth).
  { intros w Hw.
    destruct (calc_waveform_max_window w L ref_index
                (shape3_In _ _ _ _ _ Ht Hw)) as (p & Hp & _); [lia | lia |].
    exists (Z.of_nat p). exact Hp. }
  exists out. split; [exact Hout|].
  intros i w Hw.
  pose proof (shape3_nth _ _ _ _ _ _ Ht Hw) as Hsh.
  destruct (calc_waveform_max_window w L ref_index Hsh) as (p & Hp & Hpk);
    [lia | lia |].
  destruct (Hnth i w Hw) as (z & Hz & Hrow).
  assert (z = Z.of_nat p) by congruence. subst z.
  exists p, (np_roll w (- Z.of_nat p + Z.of_nat ref_index)).
  split; [exact Hp|]. split; [exact Hrow|].
  destruct Hpk as [Hpb _]. destruct Hsh as [HL _].
  apply np_roll_lands; lia.
Qed.

(** X8.  Under the same preconditions no cutout is moved far: the local
    peak lies in the window, so the offset [local_peak - ref_index] is
    between -6 and 5. *)
Theorem align_tagged_spont_offset_bounded
  (tagged : list waveform) (M L ref_index : nat) :
  shape3 tagged M L 4 ->
  6 <= ref_index <= L - 6 ->
  forall w, In w tagged ->
    exists local_peak,
      calc_waveform_max (Z.of_nat ref_index) w = Ok local_peak /\
      (-6 <= local_peak - Z.of_nat ref_index <= 5)%Z.
Proof.
  intros Ht Hr w Hw.
  destruct (calc_waveform_max_window w L ref_index
              (shape3_In _ _ _ _ _ Ht Hw)) as (p & Hp & Hpk); [lia | lia |].
  exists (Z.of_nat p). split; [exact Hp|].
  destruct Hpk as [Hpb _]. lia.
Qed.

(** X9.  Whenever [align_tagged_spont] returns, for inputs of any shape,
    nothing is lost: the output has as many cutouts as the tagged input, and
    each returned cutout holds exactly the rows of the input cutout at the
    same position (a permutation of them), so that the sum of every channel
    over a cutout is unchanged. *)
Theorem align_tagged_spont_keeps_samples
  (tagged spont out : list waveform) :
  align_tagged_spont tagged spont = Ok out ->
  length out = length tagged /\
  forall i w, nth_error tagged i = Some w ->
    exists w',
      nth_error out i = Some w' /\ Permutation w w' /\
      forall c, (Qsum (map (fun row => nth c row 0) w')
                 == Qsum (map (fun row => nth c row 0) w))%Q.
Proof.
  intros H.
  destruct (align_tagged_spont_ok_inv tagged spont out H)
    as (ref & _ & Hlen & Hnth).
  split; [exact Hlen|].
  intros i w Hw. destruct (Hnth i w Hw) as (p & _ & Hrow).
  exists (np_roll w (- p + ref)). split; [exact Hrow|].
  split; [apply np_roll_permutation|].
  intros c. apply Qsum_permutation. apply Permutation_map.
  apply Permutation_sym. apply np_roll_permutation.
Qed.

Lemma Qsum_map_pointwise {A : Type} (f : A -> Q) (l : list A) :
  forall l', length l = length l' ->
    (forall i x y, nth_error l i = Some x -> nth_error l' i = Some y ->
                   (f x == f y)%Q) ->
    (Qsum (map f l) == Qsum (map f l'))%Q.
Proof.
  induction l as [|x l IH]; intros [|y l'] Hlen H; simpl in *;
    try discriminate Hlen; [reflexivity|].
  rewrite (H 0 x y eq_refl eq_refl).
  rewrite (IH l'); [reflexivity | congruence |].
  intros i u v Hu Hv. exact (H (S i) u v Hu Hv).
Qed.

(** Rolling the rows of each cutout leaves the mean of every channel over
    the set as it was. *)
Lemma align_preserves_channel_mean (tagged spont out : list waveform) :
  align_tagged_spont tagged spont = Ok out ->
  forall L c, (channel_mean out L c == channel_mean tagged L c)%Q.
Proof.
  intros H L c.
  destruct (align_tagged_spont_ok_inv tagged spont out H)
    as (ref & _ & Hlen & Hnth).
  unfold channel_mean. rewrite Hlen.
  rewrite (Qsum_map_pointwise _ out tagged Hlen); [reflexivity|].
  intros i w' w Hw' Hw.
  destruct (Hnth i w Hw) as (p & _ & Hrow).
  assert (w' = np_roll w (- p + ref)) by congruence. subst w'.
  apply Qsum_permutation. apply Permutation_map.
  apply Permutation_sym. apply np_roll_permutation.
Qed.

(** X10.  Alignment does not undo the baseline correction: whenever
    [align_tagged_spont] returns, every channel has the same mean over the
    returned set as over the tagged input, so a set that went through the
    baseline subtraction still has mean zero on every channel. *)
Theorem align_tagged_spont_keeps_channel_means
  (tagged spont out : list waveform) (L : nat) :
  align_tagged_spont tagged spont = Ok out ->
  (forall c, (channel_mean out L c == channel_mean tagged L c)%Q) /\
  (forall raw M C c,
     tagged = remove_baseline raw -> shape3 raw M L C ->
     0 < M -> 0 < L -> c < C ->
     (channel_mean out L c == 0)%Q).
Proof.
  intros H.
  pose proof (align_preserves_channel_mean tagged spont out H) as Hmean.
  split; [intros c; apply Hmean|].
  intros raw M C c -> Hraw HM HL Hc.
  rewrite Hmean.
  unfold remove_baseline.
  rewrite (channel_mean_subtract raw _ M L C c Hraw
             (baseline_offset_length raw M L C Hraw HM HL) HM HL Hc).
  rewrite (baseline_offset_nth raw M L C c Hraw HM HL Hc). ring.
Qed.

(** ** Polarity *)

Lemma Qabs_Qopp (x : Q) : Qabs (Qopp x) = Qabs x.
Proof.
  destruct x as [n d]. unfold Qabs, Qopp. cbn [Qnum Qden].
  rewrite Z.abs_opp. reflexivity.
Qed.

Lemma np_abs2_flip_sign (w : waveform) : np_abs2 (flip_sign w) = np_abs2 w.
Proof.
  unfold np_abs2, flip_sign. rewrite map_map.
  apply map_ext. intros row. rewrite map_map.
  apply map_ext. apply Qabs_Qopp.
Qed.

Lemma slice_map {A B : Type} (f : A -> B) (a : list A) (i j : Z) :
  slice (map f a) i j = map f (slice a i j).
Proof.
  unfold slice. rewrite length_map, skipn_map, firstn_map. reflexivity.
Qed.

Lemma np_roll_map {A B : Type} (f : A -> B) (a : list A) (s : Z) :
  np_roll (map f a) s = map f (np_roll a s).
Proof.
  unfold np_roll. rewrite length_map.
  destruct (length a =? 0); [reflexivity|].
  rewrite skipn_map, firstn_map, map_app. reflexivity.
Qed.

Lemma calc_waveform_max_flip_sign (ref : Z) (w : waveform) :
  calc_waveform_max ref (flip_sign w) = calc_waveform_max ref w.
Proof.
  unfold calc_waveform_max.
  unfold flip_sign at 1. rewrite slice_map.
  change (map (map Qopp) (slice w (ref - 6) (ref + 6)))
    with (flip_sign (slice w (ref - 6) (ref + 6))).
  rewrite np_abs2_flip_sign. reflexivity.
Qed.

Lemma spont_max_index_flip_signs (spont : list waveform) :
  spont_max_index (flip_signs spont) = spont_max_index spont.
Proof.
  unfold spont_max_index, np_abs3, flip_signs. rewrite map_map.
  rewrite (map_ext _ np_abs2 np_abs2_flip_sign). reflexivity.
Qed.

Lemma mapM_map {A B C : Type} (f : B -> result C) (g : A -> B) (xs : list A) :
  mapM f (map g xs) = mapM (fun x => f (g x)) xs.
Proof.
  induction xs as [|x r IH]; simpl; [reflexivity|].
  rewrite IH. reflexivity.
Qed.

Lemma mapM_ext {A B : Type} (f g : A -> result B) (xs : list A) :
  (forall x, f x = g x) -> mapM f xs = mapM g xs.
Proof.
  intros E. induction xs as [|x r IH]; simpl; [reflexivity|].
  rewrite E, IH. reflexivity.
Qed.

Lemma roll_all_flip_sign (smi : Z) (tagged : list waveform) :
  forall offs,
    map (fun p => np_roll (fst p) (- snd p + smi))
        (combine (flip_signs tagged) offs)
    = flip_signs (map (fun p => np_roll (fst p) (- snd p + smi))
                      (combine tagged offs)).
Proof.
  induction tagged as [|w r IH]; intros [|o offs]; simpl; try reflexivity.
  rewrite IH. unfold flip_sign at 1 2. rewrite np_roll_map. reflexivity.
Qed.

(** X11.  The alignment does not depend on polarity.  Flipping the sign of
    every sample of both sets leaves the reference index and every local
    peak where they were, so the outcome is the outcome for the original
    sets with the signs flipped (and the same exception, if one is
    raised). *)
Theorem align_tagged_spont_flip_signs (tagged spont : list waveform) :
  spont_max_index (flip_signs spont) = spont_max_index spont /\
  (forall ref w,
     calc_waveform_max ref (flip_sign w) = calc_waveform_max ref w) /\
  align_tagged_spont (flip_signs tagged) (flip_signs spont)
  = on_result flip_signs (align_tagged_spont tagged spont).
Proof.
  split; [apply spont_max_index_flip_signs|].
  split; [intros ref w; apply calc_waveform_max_flip_sign|].
  unfold align_tagged_spont.
  rewrite spont_max_index_flip_signs.
  destruct (spont_max_index spont) as [smi|e]; [|reflexivity].
  cbn [bind]. unfold flip_signs at 1. rewrite mapM_map.
  rewrite (mapM_ext _ (calc_waveform_max smi) tagged
             (calc_waveform_max_flip_sign smi)).
  destruct (mapM (calc_waveform_max smi) tagged) as [offs|e]; [|reflexivity].
  cbn [bind on_result]. apply f_equal.
  apply (roll_all_flip_sign smi tagged offs).
Qed.

(** ** The end of the cutout *)

(** X12.  At the end of the cutout the window is clipped, unlike at the
    start: for a reference index of at least 6, the search succeeds exactly
    when the cutout reaches the start of the window ([ref-6 < L]), and then
    covers the rows [ [ref-6, min(ref+6, L)) ]; on a cutout too short for that
    the window is empty and the search raises [ValueError]. *)
Theorem calc_waveform_max_clips_at_end (w : waveform) (L ref_index : nat) :
  shape2 w L 4 -> 6 <= ref_index ->
  (ref_index - 6 < L ->
   exists p,
     calc_waveform_max (Z.of_nat ref_index) w = Ok (Z.of_nat p) /\
     peak_row (fun l c => Qabs (entry w l c))
              (ref_index - 6) (Nat.min (ref_index + 6) L) p) /\
  (L <= ref_index - 6 ->
   calc_waveform_max (Z.of_nat ref_index) w = Raise ValueError).
Proof.
  intros Hw H6. split.
  - intros HL. apply calc_waveform_max_window; assumption.
  - intros HL. unfold calc_waveform_max.
    replace (Z.of_nat ref_index - 6)%Z with (Z.of_nat (ref_index - 6)) by lia.
    replace (Z.of_nat ref_index + 6)%Z with (Z.of_nat (ref_index + 6)) by lia.
    rewrite slice_nonneg, (proj1 Hw).
    replace (Nat.min (ref_index + 6) L - Nat.min (ref_index - 6) L) with 0
      by lia.
    reflexivity.
Qed.

Lemma calc_waveform_max_clips_at_end_witness :
  shape2 (spike_at 32 30 (-5)) 32 4 /\ 6 <= 28 /\
  (28 - 6 < 32 ->
   exists p,
     calc_waveform_max (Z.of_nat 28) (spike_at 32 30 (-5)) = Ok (Z.of_nat p) /\
     peak_row (fun l c => Qabs (entry (spike_at 32 30 (-5)) l c))
              (28 - 6) (Nat.min (28 + 6) 32) p) /\
  (32 <= 28 - 6 ->
   calc_waveform_max (Z.of_nat 28) (spike_at 32 30 (-5)) = Raise ValueError).
Proof.
  assert (Hs : shape2 (spike_at 32 30 (-5)) 32 4) by apply spike_at_shape.
  assert (H6 : 6 <= 28) by lia.
  split; [exact Hs|]. split; [exact H6|].
  exact (calc_waveform_max_clips_at_end (spike_at 32 30 (-5)) 32 28 Hs H6).
Defined.

(** ** Rolling back *)

Lemma np_roll_back {A : Type} (a : list A) (s : Z) :
  np_roll (np_roll a s) (- s) = a.
Proof.
  assert (Hlen : length (np_roll a s) = length a) by apply np_roll_length.
  unfold np_roll at 1. rewrite Hlen. unfold np_roll.
  destruct (Nat.eqb_spec (length a) 0) as [Hz|Hn]; [reflexivity|].
  set (n := length a) in *.
  assert (Hnz : (0 < Z.of_nat n)%Z) by lia.
  pose proof (Z.mod_pos_bound s (Z.of_nat n) Hnz) as Hk.
  destruct (Z.eq_dec (s mod Z.of_nat n) 0) as [E0|E0].
  - rewrite Z.mod_opp_l_z by (trivial; lia). rewrite E0.
    change (Z.to_nat 0) with 0. rewrite !Nat.sub_0_r.
    assert (Hs : skipn n a = []) by (apply skipn_all2; unfold n; lia).
    assert (Hf : firstn n a = a) by (apply firstn_all2; unfold n; lia).
    rewrite Hs, Hf. cbn [app].
    rewrite Hs, Hf. reflexivity.
  - rewrite Z.mod_opp_l_nz by (trivial; lia).
    set (k := Z.to_nat (s mod Z.of_nat n)).
    replace (Z.to_nat (Z.of_nat n - s mod Z.of_nat n)) with (n - k)
      by (unfold k; lia).
    assert (Hkn : 0 < k < n) by (unfold k; lia).
    replace (n - (n - k)) with k by lia.
    assert (Hsk : length (skipn (n - k) a) = k)
      by (rewrite length_skipn; fold n; lia).
    rewrite skipn_app, firstn_app, Hsk, Nat.sub_diag.
    rewrite (skipn_all2 (skipn (n - k) a)) by lia.
    rewrite (firstn_all2 (skipn (n - k) a)) by lia.
    cbn [skipn firstn app]. rewrite app_nil_r.
    apply firstn_skipn.
Qed.

(** X13.  The alignment can be undone: whenever [align_tagged_spont]
    returns, rolling each returned cutout by its offset
    [local_peak - ref_index] gives back the tagged cutout it came from. *)
Theorem align_tagged_spont_can_be_undone (tagged spont out : list waveform) :
  align_tagged_spont tagged spont = Ok out ->
  exists ref_index,
    spont_max_index spont = Ok ref_index /\
    forall i w, nth_error tagged i = Some w ->
      exists local_peak w',
        calc_waveform_max ref_index w = Ok local_peak /\
        nth_error out i = Some w' /\
        np_roll w' (local_peak - ref_index) = w.
Proof.
  intros H.
  destruct (align_tagged_spont_ok_inv tagged spont out H)
    as (ref & Href & _ & Hnth).
  exists ref. split; [exact Href|].
  intros i w Hw. destruct (Hnth i w Hw) as (p & Hp & Hrow).
  exists p, (np_roll w (- p + ref)).
  split; [exact Hp|]. split; [exact Hrow|].
  replace (p - ref)%Z with (- (- p + ref))%Z by lia.
  apply np_roll_back.
Qed.

Lemma tagged_late_aligned :
  align_tagged_spont tagged_late spont_mid
  = Ok [np_roll (spike_at 32 23 (-5)) (-3)].
Proof. reflexivity. Qed.

Lemma align_tagged_spont_can_be_undone_witness :
  align_tagged_spont tagged_late spont_mid
  = Ok [np_roll (spike_at 32 23 (-5)) (-3)] /\
  exists ref_index,
    spont_max_index spont_mid = Ok ref_index /\
    forall i w, nth_error tagged_late i = Some w ->
      exists local_peak w',
        calc_waveform_max ref_index w = Ok local_peak /\
        nth_error [np_roll (spike_at 32 23 (-5)) (-3)] i = Some w' /\
        np_roll w' (local_peak - ref_index) = w.
Proof.
  split; [exact tagged_late_aligned|].
  exact (align_tagged_spont_can_be_undone tagged_late spont_mid _
           tagged_late_aligned).
Defined.

Lemma align_tagged_spont_keeps_samples_witness :
  align_tagged_spont tagged_late spont_mid
  = Ok [np_roll (spike_at 32 23 (-5)) (-3)] /\
  length [np_roll (spike_at 32 23 (-5)) (-3)] = length tagged_late /\
  forall i w, nth_error tagged_late i = Some w ->
    exists w',
      nth_error [np_roll (spike_at 32 23 (-5)) (-3)] i = Some w' /\
      Permutation w w' /\
      forall c, (Qsum (map (fun row => nth c row 0) w')
                 == Qsum (map (fun row => nth c row 0) w))%Q.
Proof.
  split; [exact tagged_late_aligned|].
  exact (align_tagged_spont_keeps_samples tagged_late spont_mid _
           tagged_late_aligned).
Defined.

Lemma align_tagged_spont_moves_peak_to_reference_witness :
  shape3 tagged_late 1 32 4 /\
  spont_max_index spont_mid = Ok (Z.of_nat 20) /\
  6 <= 20 <= 32 - 6 /\
  exists out,
    align_tagged_spont tagged_late spont_mid = Ok out /\
    forall i w, nth_error tagged_late i = Some w ->
      exists local_peak w',
        calc_waveform_max (Z.of_nat 20) w = Ok (Z.of_nat local_peak) /\
        nth_error out i = Some w' /\
        nth_error w' 20 = nth_error w local_peak.
Proof.
  assert (Hs : shape3 tagged_late 1 32 4)
    by (apply single_shape, spike_at_shape).
  assert (Href : spont_max_index spont_mid = Ok (Z.of_nat 20)) by reflexivity.
  assert (Hr : 6 <= 20 <= 32 - 6) by lia.
  split; [exact Hs|]. split; [exact Href|]. split; [exact Hr|].
  exact (align_tagged_spont_moves_peak_to_reference tagged_late spont_mid
           1 32 20 Hs Href Hr).
Defined.

Lemma align_tagged_spont_offset_bounded_witness :
  shape3 tagged_late 1 32 4 /\ 6 <= 20 <= 32 - 6 /\
  In (spike_at 32 23 (-5)) tagged_late /\
  exists local_peak,
    calc_waveform_max (Z.of_nat 20) (spike_at 32 23 (-5)) = Ok local_peak /\
    (-6 <= local_peak - Z.of_nat 20 <= 5)%Z.
Proof.
  assert (Hs : shape3 tagged_late 1 32 4)
    by (apply single_shape, spike_at_shape).
  assert (Hr : 6 <= 20 <= 32 - 6) by lia.
  assert (Hin : In (spike_at 32 23 (-5)) tagged_late) by (left; reflexivity).
  split; [exact Hs|]. split; [exact Hr|]. split; [exact Hin|].
  exact (align_tagged_spont_offset_bounded tagged_late 1 32 20 Hs Hr _ Hin).
Defined.

Lemma align_tagged_spont_keeps_channel_means_witness :
  align_tagged_spont tagged_late spont_mid
  = Ok [np_roll (spike_at 32 23 (-5)) (-3)] /\
  (forall c,
     (channel_mean [np_roll (spike_at 32 23 (-5)) (-3)] 32 c
      == channel_mean tagged_late 32 c)%Q) /\
  (forall raw M C c,
     tagged_late = remove_baseline raw -> shape3 raw M 32 C ->
     0 < M -> 0 < 32 -> c < C ->
     (channel_mean [np_roll (spike_at 32 23 (-5)) (-3)] 32 c == 0)%Q).
Proof.
  split; [exact tagged_late_aligned|].
  exact (align_tagged_spont_keeps_channel_means tagged_late spont_mid _ 32
           tagged_late_aligned).
Defined.

(** * Further properties of the baseline subtraction *)

Lemma remove_baseline_entry (a : list waveform) (N L C n l c : nat) :
  shape3 a N L C -> 0 < N -> 0 < L -> n < N -> l < L -> c < C ->
  (entry (nth n (remove_baseline a) []) l c
   == entry (nth n a []) l c - channel_mean a L c)%Q.
Proof.
  intros Ha HN HL Hn Hl Hc. unfold remove_baseline.
  rewrite (subtract_offset_entry a _ N L C n l c Ha
             (baseline_offset_length a N L C Ha HN HL) Hn Hl Hc).
  rewrite (baseline_offset_nth a N L C c Ha HN HL Hc). reflexivity.
Qed.

(** A constant taken off every channel beforehand makes no difference. *)
Lemma remove_baseline_after_subtract (a : list waveform) (k : list Q)
  (N L C n l c : nat) :
  shape3 a N L C -> length k = C -> 0 < N -> 0 < L ->
  n < N -> l < L -> c < C ->
  (entry (nth n (remove_baseline (subtract_offset a k)) []) l c
   == entry (nth n (remove_baseline a) []) l c)%Q.
Proof.
  intros Ha Hk HN HL Hn Hl Hc.
  pose proof (subtract_offset_shape a k N L C Ha Hk) as Hs.
  rewrite (remove_baseline_entry _ N L C n l c Hs HN HL Hn Hl Hc).
  rewrite (remove_baseline_entry a N L C n l c Ha HN HL Hn Hl Hc).
  rewrite (subtract_offset_entry a k N L C n l c Ha Hk Hn Hl Hc).
  rewrite (channel_mean_subtract a k N L C c Ha Hk HN HL Hc).
  ring.
Qed.

(** X14.  The baseline subtraction removes any constant offset: two sets
    that differ by one constant per channel (the second is the first with
    [k] subtracted on every sample) come out of it with equal samples. *)
Theorem remove_baseline_ignores_constant_offset
  (a : list waveform) (k : list Q) (N L C : nat) :
  shape3 a N L C -> length k = C -> 0 < N -> 0 < L ->
  shape3 (remove_baseline (subtract_offset a k)) N L C /\
  forall n l c, n < N -> l < L -> c < C ->
    (entry (nth n (remove_baseline (subtract_offset a k)) []) l c
     == entry (nth n (remove_baseline a) []) l c)%Q.
Proof.
  intros Ha Hk HN HL. split.
  - pose proof (subtract_offset_shape a k N L C Ha Hk) as Hs.
    unfold remove_baseline at 1.
    apply subtract_offset_shape; [exact Hs|].
    apply (baseline_offset_length _ N L C); assumption.
  - intros n l c Hn Hl Hc.
    apply (remove_baseline_after_subtract a k N L C); assumption.
Qed.

(** X15.  The baseline subtraction is idempotent: applied to its own output
    it changes no sample. *)
Theorem remove_baseline_idempotent (a : list waveform) (N L C : nat) :
  shape3 a N L C -> 0 < N -> 0 < L ->
  forall n l c, n < N -> l < L -> c < C ->
    (entry (nth n (remove_baseline (remove_baseline a)) []) l c
     == entry (nth n (remove_baseline a) []) l c)%Q.
Proof.
  intros Ha HN HL n l c Hn Hl Hc.
  unfold remove_baseline at 2.
  apply (remove_baseline_after_subtract a _ N L C); trivial.
  apply (baseline_offset_length a N L C); assumption.
Qed.

Lemma remove_baseline_ignores_constant_offset_witness :
  shape3 two_sample_set 1 2 4 /\ length [1; 2; 3; 4]%Q = 4 /\ 0 < 1 /\ 0 < 2 /\
  shape3 (remove_baseline (subtract_offset two_sample_set [1; 2; 3; 4]%Q))
         1 2 4 /\
  forall n l c, n < 1 -> l < 2 -> c < 4 ->
    (entry (nth n (remove_baseline
                     (subtract_offset two_sample_set [1; 2; 3; 4]%Q)) []) l c
     == entry (nth n (remove_baseline two_sample_set) []) l c)%Q.
Proof.
  split; [exact two_sample_set_shape|]. split; [reflexivity|].
  split; [lia|]. split; [lia|].
  apply (remove_baseline_ignores_constant_offset two_sample_set
           [1; 2; 3; 4]%Q 1 2 4);
    [exact two_sample_set_shape | reflexivity | lia | lia].
Defined.

Lemma remove_baseline_idempotent_witness :
  shape3 two_sample_set 1 2 4 /\ 0 < 1 /\ 0 < 2 /\
  forall n l c, n < 1 -> l < 2 -> c < 4 ->
    (entry (nth n (remove_baseline (remove_baseline two_sample_set)) []) l c
     == entry (nth n (remove_baseline two_sample_set) []) l c)%Q.
Proof.
  split; [exact two_sample_set_shape|]. split; [lia|]. split; [lia|].
  apply (remove_baseline_idempotent two_sample_set 1 2 4);
    [exact two_sample_set_shape | lia | lia].
Defined.

(** * The presenter *)











(** * The entry point *)

(** X19.  The channel ranges of the tetrodes tile the channels: each range
    holds four channels, the range of the next tetrode starts right after,
    and a channel [ch] lies in the range of tetrode [t] exactly when
    [t = (ch - 1) // 4 + 1]. *)
Theorem channel_range_tiles_channels (tetrode : Z) :
  (snd (channel_range tetrode) - fst (channel_range tetrode) + 1 = 4)%Z /\
  (fst (channel_range (tetrode + 1)) = snd (channel_range tetrode) + 1)%Z /\
  (forall ch,
     (fst (channel_range tetrode) <= ch <= snd (channel_range tetrode))%Z <->
     tetrode = ((ch - 1) / 4 + 1)%Z).
Proof.
  unfold channel_range. cbn [fst snd].
  split; [lia|]. split; [lia|].
  intros ch.
  pose proof (Z.div_mod (ch - 1) 4) as E.
  pose proof (Z.mod_pos_bound (ch - 1) 4) as B.
  lia.
Qed.

Lemma remove_baseline_shape (a : list waveform) (N L C : nat) :
  shape3 a N L C -> 0 < N -> 0 < L -> shape3 (remove_baseline a) N L C.
Proof.
  intros Ha HN HL. unfold remove_baseline.
  apply subtract_offset_shape; [exact Ha|].
  apply (baseline_offset_length a N L C); assumption.
Qed.

Lemma remove_baseline_zero_mean (a : list waveform) (N L C c : nat) :
  shape3 a N L C -> 0 < N -> 0 < L -> c < C ->
  (channel_mean (remove_baseline a) L c == 0)%Q.
Proof.
  intros Ha HN HL Hc. unfold remove_baseline.
  rewrite (channel_mean_subtract a _ N L C c Ha
             (baseline_offset_length a N L C Ha HN HL) HN HL Hc).
  rewrite (baseline_offset_nth a N L C c Ha HN HL Hc). ring.
Qed.

Lemma align_tagged_spont_ok_shape (tagged spont out : list waveform)
  (M L C : nat) :
  align_tagged_spont tagged spont = Ok out ->
  shape3 tagged M L C -> shape3 out M L C.
Proof.
  intros H Ht.
  destruct (align_tagged_spont_ok_inv tagged spont out H)
    as (ref & _ & Hlen & Hnth).
  split; [rewrite Hlen; exact (proj1 Ht)|].
  apply Forall_forall. intros w' Hw'.
  destruct (In_nth_error _ _ Hw') as [i Hi].
  assert (Hlt : i < length tagged).
  { rewrite <- Hlen. apply nth_error_Some. congruence. }
  destruct (nth_error tagged i) as [w|] eqn:Ew;
    [|apply nth_error_None in Ew; lia].
  destruct (Hnth i w Ew) as (p & _ & Hrow).
  assert (w' = np_roll w (- p + ref)) by congruence. subst w'.
  destruct (shape3_nth _ _ _ _ _ _ Ht Ew) as [HL HC].
  split; [rewrite np_roll_length; exact HL | apply np_roll_Forall; exact HC].
Qed.

Section EntryPointFacts.

Context {T W : Type}.
Variable ltb : T -> T -> bool.
Variable sub : T -> T -> T.
Variable default_window : T.
Variable load_nlx : Z * Z -> W.
Variable extract_waveform_at_timestamp : W -> list T -> list waveform.
Variable time_axis : Z -> nat -> Z -> result (list Q).

(** X18.  When no spike is tagged (and the extraction of no timestamp gives
    no cutout), the entry point cannot plot: the aligned tagged set is empty
    and [plot_all_cutouts] raises [IndexError] on [cutouts[0]].  Without
    plotting it returns an empty tagged set and the baseline-corrected
    spontaneous set. *)
Theorem load_plot_tagged_waveforms_without_tagged_spikes
  (tetrode : Z) (event_times spike_times spont : list T) (N L : nat) :
  assign_timestamp_type ltb sub event_times spike_times default_window
  = Ok ([], spont) ->
  extract_waveform_at_timestamp (load_nlx (channel_range tetrode)) [] = [] ->
  shape3 (extract_waveform_at_timestamp (load_nlx (channel_range tetrode)) spont)
         N L 4 ->
  0 < N -> 0 < L ->
  load_plot_tagged_waveforms ltb sub default_window load_nlx
    extract_waveform_at_timestamp time_axis tetrode event_times spike_times true
  = Raise IndexError /\
  load_plot_tagged_waveforms ltb sub default_window load_nlx
    extract_waveform_at_timestamp time_axis tetrode event_times spike_times false
  = Ok ([], ([], remove_baseline
                   (extract_waveform_at_timestamp
                      (load_nlx (channel_range tetrode)) spont))).
Proof.
  intros Hassign Hnone Hs HN HL.
  unfold load_plot_tagged_waveforms.
  rewrite Hassign. cbn [bind fst snd]. rewrite Hnone.
  destruct (spont_max_index_peak _ N L (remove_baseline_shape _ N L 4 Hs HN HL)
              HN HL) as (r & Hr & _).
  assert (Halign : align_tagged_spont (remove_baseline [])
                     (remove_baseline
                        (extract_waveform_at_timestamp
                           (load_nlx (channel_range tetrode)) spont))
                   = Ok []).
  { unfold align_tagged_spont. rewrite Hr. reflexivity. }
  rewrite Halign. cbn [bind]. split; reflexivity.
Qed.

(** X20.  When both classes have cutouts of shape (L, 4) and the reference
    index of the baseline-corrected spontaneous set lies in [6, L-6], the
    entry point (without plotting) returns the aligned tagged set and the
    spontaneous set; the spontaneous set is baseline-corrected and never
    shifted, both sets keep their shapes, and every channel of both has
    mean zero. *)
Theorem load_plot_tagged_waveforms_returns
  (tetrode : Z) (event_times spike_times tagged spont : list T)
  (M N L ref_index : nat) :
  assign_timestamp_type ltb sub event_times spike_times default_window
  = Ok (tagged, spont) ->
  shape3 (extract_waveform_at_timestamp (load_nlx (channel_range tetrode)) tagged)
         M L 4 ->
  shape3 (extract_waveform_at_timestamp (load_nlx (channel_range tetrode)) spont)
         N L 4 ->
  0 < M -> 0 < N -> 0 < L ->
  spont_max_index
    (remove_baseline
       (extract_waveform_at_timestamp (load_nlx (channel_range tetrode)) spont))
  = Ok (Z.of_nat ref_index) ->
  6 <= ref_index <= L - 6 ->
  exists aligned,
    load_plot_tagged_waveforms ltb sub default_window load_nlx
      extract_waveform_at_timestamp time_axis tetrode event_times spike_times
      false
    = Ok ([], (aligned,
               remove_baseline
                 (extract_waveform_at_timestamp
                    (load_nlx (channel_range tetrode)) spont))) /\
    shape3 aligned M L 4 /\
    shape3 (remove_baseline
              (extract_waveform_at_timestamp
                 (load_nlx (channel_range tetrode)) spont)) N L 4 /\
    forall c, c < 4 ->
      (channel_mean aligned L c == 0)%Q /\
      (channel_mean
         (remove_baseline
            (extract_waveform_at_timestamp
               (load_nlx (channel_range tetrode)) spont)) L c == 0)%Q.
Proof.
  intros Hassign Ht Hs HM HN HL Href Hr.
  set (wb := load_nlx (channel_range tetrode)) in *.
  pose proof (remove_baseline_shape _ M L 4 Ht HM HL) as Ht'.
  pose proof (remove_baseline_shape _ N L 4 Hs HN HL) as Hs'.
  destruct (align_tagged_spont_rolls
              (remove_baseline (extract_waveform_at_timestamp wb tagged))
              (remove_baseline (extract_waveform_at_timestamp wb spont))
              (Z.of_nat ref_index) Href) as (aligned & Hal & _ & _).
  { intros w Hw.
    destruct (calc_waveform_max_window w L ref_index
                (shape3_In _ _ _ _ _ Ht' Hw)) as (p & Hp & _); [lia | lia |].
    exists (Z.of_nat p). exact Hp. }
  exists aligned. split.
  - unfold load_plot_tagged_waveforms. fold wb.
    rewrite Hassign. cbn [bind fst snd]. rewrite Hal. reflexivity.
  - split; [exact (align_tagged_spont_ok_shape _ _ _ M L 4 Hal Ht')|].
    split; [exact Hs'|].
    intros c Hc. split.
    + rewrite (align_preserves_channel_mean _ _ _ Hal L c).
      apply (remove_baseline_zero_mean _ M L 4); assumption.
    + apply (remove_baseline_zero_mean _ N L 4); assumption.
Qed.

End EntryPointFacts.

Lemma demo_extract_shape (stamps : list Q) :
  shape3 (demo_extract tt stamps) (length stamps) 32 4.
Proof.
  unfold demo_extract. split; [apply length_map|].
  apply Forall_map. apply Forall_forall. intros t _.
  destruct (Qltb t 1.5); apply spike_at_shape.
Qed.

Lemma load_plot_tagged_waveforms_without_tagged_spikes_witness :
  assign_timestamp_type Qltb Qminus [] [1.002; 1.6]%Q 0.01%Q
  = Ok ([], [1.002; 1.6]%Q) /\
  demo_extract (demo_load_nlx (channel_range 1)) [] = [] /\
  shape3 (demo_extract (demo_load_nlx (channel_range 1)) [1.002; 1.6]%Q) 2 32 4 /\
  0 < 2 /\ 0 < 32 /\
  load_plot_tagged_waveforms Qltb Qminus 0.01%Q demo_load_nlx demo_extract
    demo_time_axis 1 [] [1.002; 1.6]%Q true
  = Raise IndexError /\
  load_plot_tagged_waveforms Qltb Qminus 0.01%Q demo_load_nlx demo_extract
    demo_time_axis 1 [] [1.002; 1.6]%Q false
  = Ok ([], ([], remove_baseline
                   (demo_extract (demo_load_nlx (channel_range 1))
                                 [1.002; 1.6]%Q))).
Proof.
  assert (Ha : assign_timestamp_type Qltb Qminus [] [1.002; 1.6]%Q 0.01%Q
               = Ok ([], [1.002; 1.6]%Q)) by reflexivity.
  assert (Hs : shape3 (demo_extract (demo_load_nlx (channel_range 1))
                         [1.002; 1.6]%Q) 2 32 4)
    by exact (demo_extract_shape [1.002; 1.6]%Q).
  split; [exact Ha|]. split; [reflexivity|]. split; [exact Hs|].
  split; [lia|]. split; [lia|].
  apply (load_plot_tagged_waveforms_without_tagged_spikes Qltb Qminus 0.01%Q
           demo_load_nlx demo_extract demo_time_axis 1 [] [1.002; 1.6]%Q
           [1.002; 1.6]%Q 2 32 Ha eq_refl Hs); lia.
Defined.

Lemma load_plot_tagged_waveforms_returns_witness :
  assign_timestamp_type Qltb Qminus [1; 2]%Q [1.002; 1.5; 2.005]%Q 0.01%Q
  = Ok ([1.002; 2.005]%Q, [1.5]%Q) /\
  shape3 (demo_extract (demo_load_nlx (channel_range 1)) [1.002; 2.005]%Q)
         2 32 4 /\
  shape3 (demo_extract (demo_load_nlx (channel_range 1)) [1.5]%Q) 1 32 4 /\
  0 < 2 /\ 0 < 1 /\ 0 < 32 /\
  spont_max_index
    (remove_baseline (demo_extract (demo_load_nlx (channel_range 1)) [1.5]%Q))
  = Ok (Z.of_nat 20) /\
  6 <= 20 <= 32 - 6 /\
  exists aligned,
    load_plot_tagged_waveforms Qltb Qminus 0.01%Q demo_load_nlx demo_extract
      demo_time_axis 1 [1; 2]%Q [1.002; 1.5; 2.005]%Q false
    = Ok ([], (aligned,
               remove_baseline
                 (demo_extract (demo_load_nlx (channel_range 1)) [1.5]%Q))) /\
    shape3 aligned 2 32 4 /\
    shape3 (remove_baseline
              (demo_extract (demo_load_nlx (channel_range 1)) [1.5]%Q))
           1 32 4 /\
    forall c, c < 4 ->
      (channel_mean aligned 32 c == 0)%Q /\
      (channel_mean
         (remove_baseline
            (demo_extract (demo_load_nlx (channel_range 1)) [1.5]%Q))
         32 c == 0)%Q.
Proof.
  assert (Ha : assign_timestamp_type Qltb Qminus [1; 2]%Q
                 [1.002; 1.5; 2.005]%Q 0.01%Q
               = Ok ([1.002; 2.005]%Q, [1.5]%Q)) by reflexivity.
  assert (Ht : shape3 (demo_extract (demo_load_nlx (channel_range 1))
                         [1.002; 2.005]%Q) 2 32 4)
    by exact (demo_extract_shape [1.002; 2.005]%Q).
  assert (Hs : shape3 (demo_extract (demo_load_nlx (channel_range 1))
                         [1.5]%Q) 1 32 4)
    by exact (demo_extract_shape [1.5]%Q).
  assert (Href : spont_max_index
                   (remove_baseline
                      (demo_extract (demo_load_nlx (channel_range 1)) [1.5]%Q))
                 = Ok (Z.of_nat 20)) by (vm_compute; reflexivity).
  split; [exact Ha|]. split; [exact Ht|]. split; [exact Hs|].
  split; [lia|]. split; [lia|]. split; [lia|].
  split; [exact Href|]. split; [lia|].
  apply (load_plot_tagged_waveforms_returns Qltb Qminus 0.01%Q
           demo_load_nlx demo_extract demo_time_axis 1 [1; 2]%Q
           [1.002; 1.5; 2.005]%Q [1.002; 2.005]%Q [1.5]%Q 2 1 32 20
           Ha Ht Hs); trivial; lia.
Defined.

(** * Independence of the elements *)

Lemma mapM_app {A B : Type} (f : A -> result B) (xs ys : list A) :
  forall us vs, mapM f xs = Ok us -> mapM f ys = Ok vs ->
    mapM f (xs ++ ys) = Ok (us ++ vs).
Proof.
  induction xs as [|x xs IH]; intros us vs Hx Hy; simpl in *.
  - injection Hx as <-. exact Hy.
  - destruct (f x) as [y|e]; [|discriminate Hx]. simpl in *.
    destruct (mapM f xs) as [us'|e]; [|discriminate Hx]. simpl in Hx.
    injection Hx as <-.
    rewrite (IH us' vs eq_refl Hy). reflexivity.
Qed.

Lemma combine_app_same {A B : Type} (xs : list A) (us : list B) :
  length us = length xs ->
  forall ys vs, combine (xs ++ ys) (us ++ vs) = combine xs us ++ combine ys vs.
Proof.
  revert us. induction xs as [|x xs IH]; intros [|u us] Hlen ys vs;
    simpl in *; try discriminate Hlen; [reflexivity|].
  rewrite IH by congruence. reflexivity.
Qed.

(** X21.  Each spike is classified on its own: when two spike sequences are
    classified against the same events and window, classifying their
    concatenation gives the concatenated outputs. *)
Theorem assign_timestamp_type_concatenates {T : Type}
  (ltb : T -> T -> bool) (sub : T -> T -> T)
  (events spikes1 spikes2 tagged1 spont1 tagged2 spont2 : list T) (w : T) :
  assign_timestamp_type ltb sub events spikes1 w = Ok (tagged1, spont1) ->
  assign_timestamp_type ltb sub events spikes2 w = Ok (tagged2, spont2) ->
  assign_timestamp_type ltb sub events (spikes1 ++ spikes2) w
  = Ok (tagged1 ++ tagged2, spont1 ++ spont2).
Proof.
  intros H1 H2.
  assert (N1 : spikes1 <> []) by (intros ->; discriminate H1).
  assert (N2 : spikes2 <> []) by (intros ->; discriminate H2).
  rewrite assign_timestamp_type_nonempty in H1 by exact N1.
  rewrite assign_timestamp_type_nonempty in H2 by exact N2.
  rewrite assign_timestamp_type_nonempty
    by (intros E; apply app_eq_nil in E; destruct E; contradiction).
  rewrite !filter_app. congruence.
Qed.

Lemma assign_timestamp_type_concatenates_witness :
  assign_timestamp_type Qltb Qminus [1; 2]%Q [1.002; 1.5]%Q 0.01%Q
  = Ok ([1.002]%Q, [1.5]%Q) /\
  assign_timestamp_type Qltb Qminus [1; 2]%Q [2.005]%Q 0.01%Q
  = Ok ([2.005]%Q, []) /\
  assign_timestamp_type Qltb Qminus [1; 2]%Q ([1.002; 1.5] ++ [2.005])%Q 0.01%Q
  = Ok ([1.002] ++ [2.005], [1.5] ++ [])%Q.
Proof.
  assert (H1 : assign_timestamp_type Qltb Qminus [1; 2]%Q [1.002; 1.5]%Q 0.01%Q
               = Ok ([1.002]%Q, [1.5]%Q)) by reflexivity.
  assert (H2 : assign_timestamp_type Qltb Qminus [1; 2]%Q [2.005]%Q 0.01%Q
               = Ok ([2.005]%Q, [])) by reflexivity.
  split; [exact H1|]. split; [exact H2|].
  exact (assign_timestamp_type_concatenates Qltb Qminus _ _ _ _ _ _ _ _ H1 H2).
Defined.

(** X22.  Each tagged cutout is aligned on its own: when two tagged sets are
    aligned against the same spontaneous set, aligning their concatenation
    gives the concatenated outputs. *)
Theorem align_tagged_spont_concatenates
  (tagged1 tagged2 spont out1 out2 : list waveform) :
  align_tagged_spont tagged1 spont = Ok out1 ->
  align_tagged_spont tagged2 spont = Ok out2 ->
  align_tagged_spont (tagged1 ++ tagged2) spont = Ok (out1 ++ out2).
Proof.
  unfold align_tagged_spont. intros H1 H2.
  destruct (spont_max_index spont) as [smi|e]; [|discriminate H1].
  cbn [bind] in *.
  destruct (mapM (calc_waveform_max smi) tagged1) as [o1|e] eqn:E1;
    [|discriminate H1].
  destruct (mapM (calc_waveform_max smi) tagged2) as [o2|e] eqn:E2;
    [|discriminate H2].
  cbn [bind] in *.
  rewrite (mapM_app _ _ _ _ _ E1 E2). cbn [bind].
  rewrite combine_app_same by (apply (mapM_ok_inv _ _ _ E1)).
  rewrite map_app.
  injection H1 as <-. injection H2 as <-. reflexivity.
Qed.

Lemma align_tagged_spont_concatenates_witness :
  align_tagged_spont tagged_late spont_mid
  = Ok [np_roll (spike_at 32 23 (-5)) (-3)] /\
  align_tagged_spont spont_mid spont_mid = Ok spont_mid /\
  align_tagged_spont (tagged_late ++ spont_mid) spont_mid
  = Ok ([np_roll (spike_at 32 23 (-5)) (-3)] ++ spont_mid).
Proof.
  assert (H2 : align_tagged_spont spont_mid spont_mid = Ok spont_mid)
    by reflexivity.
  split; [exact tagged_late_aligned|]. split; [exact H2|].
  exact (align_tagged_spont_concatenates _ _ _ _ _ tagged_late_aligned H2).
Defined.

(** X23.  The reference index does not depend on the order of the
    spontaneous cutouts: two sets of shape (N, L, 4) with the same cutouts
    in a different order have the same reference index. *)
Theorem spont_max_index_order_independent
  (spont spont' : list waveform) (N L : nat) :
  Permutation spont spont' -> shape3 spont N L 4 -> 0 < N -> 0 < L ->
  spont_max_index spont' = spont_max_index spont.
Proof.
  intros Hp Hs HN HL.
  assert (Hs' : shape3 spont' N L 4).
  { destruct Hs as [Hlen Hall]. split.
    - rewrite <- (Permutation_length Hp). exact Hlen.
    - exact (Permutation_Forall Hp Hall). }
  destruct (spont_max_index_peak spont N L Hs HN HL) as (r & Hr & Hpk).
  destruct (spont_max_index_peak spont' N L Hs' HN HL) as (r' & Hr' & Hpk').
  rewrite Hr, Hr'. f_equal. f_equal.
  apply (peak_row_unique (mean_abs_at spont) 0 L); [|exact Hpk].
  apply (peak_row_ext (mean_abs_at spont')); [|exact Hpk'].
  intros l c _ _. unfold mean_abs_at.
  rewrite (Permutation_length Hp).
  rewrite (Qsum_permutation _ _
             (Permutation_map (fun w => Qabs (entry w l c)) Hp)).
  reflexivity.
Qed.

Lemma spont_max_index_order_independent_witness :
  Permutation (tagged_late ++ spont_mid) (spont_mid ++ tagged_late) /\
  shape3 (tagged_late ++ spont_mid) 2 32 4 /\ 0 < 2 /\ 0 < 32 /\
  spont_max_index (spont_mid ++ tagged_late)
  = spont_max_index (tagged_late ++ spont_mid).
Proof.
  assert (Hp : Permutation (tagged_late ++ spont_mid) (spont_mid ++ tagged_late))
    by apply Permutation_app_comm.
  assert (Hs : shape3 (tagged_late ++ spont_mid) 2 32 4).
  { split; [reflexivity|].
    repeat (constructor; [apply spike_at_shape|]). constructor. }
  split; [exact Hp|]. split; [exact Hs|]. split; [lia|]. split; [lia|].
  apply (spont_max_index_order_independent _ _ 2 32 Hp Hs); lia.
Defined.

(** * Gain *)

Lemma Qabs_positive (k : Q) : ~ (k == 0)%Q -> (0 < Qabs k)%Q.
Proof.
  destruct k as [n d]. unfold Qeq, Qlt, Qabs. simpl. lia.
Qed.

Lemma Qltb_iff (a b c d : Q) :
  ((a < b)%Q <-> (c < d)%Q) -> Qltb a b = Qltb c d.
Proof.
  intros H.
  destruct (Qltb a b) eqn:E1; destruct (Qltb c d) eqn:E2; trivial.
  - apply Qltb_lt, H, Qltb_lt in E1. congruence.
  - apply Qltb_lt, H, Qltb_lt in E2. congruence.
Qed.

Lemma Qltb_abs_scaled (k x y : Q) :
  ~ (k == 0)%Q ->
  Qltb (Qabs (k * x)) (Qabs (k * y)) = Qltb (Qabs x) (Qabs y).
Proof.
  intros Hk. apply Qltb_iff. rewrite !Qabs_Qmult.
  apply Qmult_lt_l. apply Qabs_positive. exact Hk.
Qed.

(** The first maximum depends only on how the values compare. *)
Lemma argmax_from_order (g g' : Q -> Q) :
  (forall x y, Qltb (g' x) (g' y) = Qltb (g x) (g y)) ->
  forall xs best_i best i,
    argmax_from best_i (g' best) i (map g' xs)
    = argmax_from best_i (g best) i (map g xs).
Proof.
  intros H. induction xs as [|x xs IH]; intros best_i best i; simpl.
  - reflexivity.
  - rewrite H. destruct (Qltb (g best) (g x)); apply IH.
Qed.

Lemma argmax_order (g g' : Q -> Q) (xs : list Q) :
  (forall x y, Qltb (g' x) (g' y) = Qltb (g x) (g y)) ->
  argmax (map g' xs) = argmax (map g xs).
Proof.
  intros H. destruct xs as [|x xs]; [reflexivity|].
  simpl. f_equal. apply argmax_from_order. exact H.
Qed.

Lemma calc_waveform_max_scale (k : Q) (ref : Z) (w : waveform) :
  ~ (k == 0)%Q ->
  calc_waveform_max ref (scale k w) = calc_waveform_max ref w.
Proof.
  intros Hk. unfold calc_waveform_max, scale, np_abs2.
  rewrite slice_map, map_map.
  rewrite (map_ext (fun row => map Qabs (map (Qmult k) row))
                   (map (fun x => Qabs (k * x))%Q))
    by (intros row; apply map_map).
  rewrite <- !concat_map.
  rewrite (argmax_order Qabs (fun x => Qabs (k * x))%Q)
    by (intros x y; apply Qltb_abs_scaled; exact Hk).
  reflexivity.
Qed.

Lemma scale_shape (k : Q) (w : waveform) (L C : nat) :
  shape2 w L C -> shape2 (scale k w) L C.
Proof. apply map_map_shape. Qed.

Lemma scales_shape (k : Q) (a : list waveform) (N L C : nat) :
  shape3 a N L C -> shape3 (scales k a) N L C.
Proof.
  intros [HN Ha]. unfold scales. split; [rewrite length_map; exact HN|].
  apply Forall_map.
  apply (Forall_impl _ (P := fun w => shape2 w L C)); [|exact Ha].
  intros w. apply scale_shape.
Qed.

Lemma mean_abs_at_scales (k : Q) (a : list waveform) (N L l c : nat) :
  shape3 a N L 4 -> l < L -> c < 4 ->
  (mean_abs_at (scales k a) l c == Qabs k * mean_abs_at a l c)%Q.
Proof.
  intros [HN Ha] Hl Hc. unfold mean_abs_at, scales.
  rewrite length_map, map_map.
  rewrite (Qsum_map_ext _ _ (fun w => Qabs (entry w l c) * Qabs k)%Q).
  - rewrite Qsum_map_scale. unfold Qdiv. ring.
  - intros w Hw. rewrite Forall_forall in Ha. unfold scale.
    rewrite (map_map_entry _ w L 4 l c (Ha w Hw) Hl Hc).
    rewrite Qabs_Qmult. ring.
Qed.

Lemma peak_row_unscale (s : Q) (f : nat -> nat -> Q) (lo hi p : nat) :
  (0 < s)%Q -> peak_row (fun l c => s * f l c)%Q lo hi p -> peak_row f lo hi p.
Proof.
  intros Hs (Hp & c & Hc & M & F).
  split; [exact Hp|]. exists c. split; [exact Hc|]. split.
  - intros l c' Hl Hc'. apply (Qmult_le_l _ _ s Hs). apply M; assumption.
  - intros l c' Hl Hc'. apply (Qmult_lt_l _ _ s Hs). apply F; assumption.
Qed.

Lemma spont_max_index_scales (k : Q) (spont : list waveform) (N L : nat) :
  ~ (k == 0)%Q -> shape3 spont N L 4 -> 0 < N -> 0 < L ->
  spont_max_index (scales k spont) = spont_max_index spont.
Proof.
  intros Hk Hs HN HL.
  destruct (spont_max_index_peak spont N L Hs HN HL) as (r & Hr & Hpk).
  destruct (spont_max_index_peak (scales k spont) N L
              (scales_shape k spont N L 4 Hs) HN HL) as (r' & Hr' & Hpk').
  rewrite Hr, Hr'. f_equal. f_equal.
  apply (peak_row_unique (mean_abs_at spont) 0 L); [|exact Hpk].
  apply (peak_row_unscale (Qabs k)); [apply Qabs_positive; exact Hk|].
  apply (peak_row_ext (mean_abs_at (scales k spont))); [|exact Hpk'].
  intros l c [_ Hl] Hc. apply (mean_abs_at_scales k spont N L); assumption.
Qed.

Lemma roll_all_scale (k : Q) (smi : Z) (tagged : list waveform) :
  forall offs,
    map (fun p => np_roll (fst p) (- snd p + smi))
        (combine (scales k tagged) offs)
    = scales k (map (fun p => np_roll (fst p) (- snd p + smi))
                    (combine tagged offs)).
Proof.
  induction tagged as [|w r IH]; intros [|o offs]; simpl; try reflexivity.
  rewrite IH. unfold scale at 1 2. rewrite np_roll_map. reflexivity.
Qed.

(** X24.  The alignment does not depend on the gain: multiplying every
    sample of both sets by the same non-zero factor [k] leaves the reference
    index and every local peak where they were, and the outcome is the
    outcome for the original sets multiplied by [k] (or the same
    exception). *)
Theorem align_tagged_spont_scales
  (k : Q) (tagged spont : list waveform) (N L : nat) :
  ~ (k == 0)%Q -> shape3 spont N L 4 -> 0 < N -> 0 < L ->
  spont_max_index (scales k spont) = spont_max_index spont /\
  (forall ref w,
     calc_waveform_max ref (scale k w) = calc_waveform_max ref w) /\
  align_tagged_spont (scales k tagged) (scales k spont)
  = on_result (scales k) (align_tagged_spont tagged spont).
Proof.
  intros Hk Hs HN HL.
  pose proof (spont_max_index_scales k spont N L Hk Hs HN HL) as Href.
  split; [exact Href|].
  split; [intros ref w; apply calc_waveform_max_scale; exact Hk|].
  unfold align_tagged_spont. rewrite Href.
  destruct (spont_max_index spont) as [smi|e]; [|reflexivity].
  cbn [bind]. unfold scales at 1. rewrite mapM_map.
  rewrite (mapM_ext _ (calc_waveform_max smi) tagged
             (fun w => calc_waveform_max_scale k smi w Hk)).
  destruct (mapM (calc_waveform_max smi) tagged) as [offs|e]; [|reflexivity].
  cbn [bind on_result]. apply f_equal.
  apply (roll_all_scale k smi tagged offs).
Qed.

Lemma align_tagged_spont_scales_witness :
  ~ (1000 == 0)%Q /\ shape3 spont_mid 1 32 4 /\ 0 < 1 /\ 0 < 32 /\
  spont_max_index (scales 1000 spont_mid) = spont_max_index spont_mid /\
  (forall ref w,
     calc_waveform_max ref (scale 1000 w) = calc_waveform_max ref w) /\
  align_tagged_spont (scales 1000 tagged_late) (scales 1000 spont_mid)
  = on_result (scales 1000) (align_tagged_spont tagged_late spont_mid).
Proof.
  assert (Hk : ~ (1000 == 0)%Q) by discriminate.
  assert (Hs : shape3 spont_mid 1 32 4)
    by (apply single_shape, spike_at_shape).
  split; [exact Hk|]. split; [exact Hs|]. split; [lia|]. split; [lia|].
  apply (align_tagged_spont_scales 1000 tagged_late spont_mid 1 32 Hk Hs); lia.
Defined.
